(** * GEO metadata normalisation and file correlation

    A shallow embedding of [geo_processor.py] (class [GEODataProcessor],
    [process_multiple_datasets]) and of the renaming step of the legacy
    script [misc_version/geo_query_misc.py].

    Conventions of the embedding:
    - a pandas cell is a [cell]: [NaN] (absent) or [Str s]; the empty string
      is a present value;
    - a pandas [Series] (one row) is the list of its labels with their
      values, in column order; a [DataFrame] is its column list, the dtypes
      of its columns and its rows (row key and cells, positionally);
    - Python dictionaries are [gmap string _];
    - an f-string is the list of its literal and interpolated parts;
    - the logger, the file store, GEOparse and the [re] module are the
      collaborators of the program: the log is a component of the state, the
      others are the fields of the class [Env];
    - code that may raise runs in the state-and-exception monad [M]. *)

From Stdlib Require Import Ascii String.
From stdpp Require Import base option list gmap strings sorting.

Set Warnings "-clear-no-such-hyp".

(** ** Python strings *)

Module PyStr.

(** [s.replace(old, new)] for one-character [old] and [new]. *)
Fixpoint replace (old new : ascii) (s : string) : string :=
  match s with
  | EmptyString => EmptyString
  | String c s' =>
      String (if Ascii.eqb c old then new else c) (replace old new s')
  end.

(** [sub in s]. *)
Fixpoint contains (sub s : string) : bool :=
  String.prefix sub s ||
  match s with
  | EmptyString => false
  | String _ s' => contains sub s'
  end.

(** [s.split(sep)[-1]]: the text after the last [sep]; [acc] is the
    segment read so far. *)
Fixpoint last_segment_from (sep : ascii) (acc s : string) : string :=
  match s with
  | EmptyString => acc
  | String c s' =>
      if Ascii.eqb c sep then last_segment_from sep EmptyString s'
      else last_segment_from sep (acc +:+ String c EmptyString) s'
  end.

Definition last_segment (sep : ascii) (s : string) : string :=
  last_segment_from sep EmptyString s.

(** Truth value of a string in a condition. *)
Definition truthy (s : string) : bool :=
  match s with EmptyString => false | _ => true end.

End PyStr.

(** ** Cells, rows and tables *)

Inductive cell : Type :=
| NaN
| Str (s : string).

#[global] Instance cell_eq_dec : EqDecision cell.
Proof. solve_decision. Defined.

(** [pd.notna]. *)
Definition notna (c : cell) : bool :=
  match c with NaN => false | Str _ => true end.

(** [str(c)] and [f"{c}"]. *)
Definition str_of_cell (c : cell) : string :=
  match c with NaN => "nan" | Str s => s end.

(** A row as [iterrows] yields it. *)
Definition Series : Type := list (string * cell).

(** The dtype of a column.  A column that holds text is of dtype [object],
    as is every column of a table that GEOparse builds from strings; a
    column that was built from absent values only is of dtype [float64].
    Selections of rows and of columns keep the dtype of a column. *)
Inductive dtype : Type := object | float64.

#[global] Instance dtype_eq_dec : EqDecision dtype.
Proof. solve_decision. Defined.

Record DataFrame : Type := mkDataFrame {
  columns : list string;
  dtypes : list dtype;
  df_rows : list (string * list cell)
}.

(** [len(df)]. *)
Definition df_len (df : DataFrame) : nat := length (df_rows df).


(** [c in row] ([c in df.columns] for a column list). *)
Definition label_in (c : string) (labels : list string) : bool :=
  bool_decide (c ∈ labels).

(** The value under label [c], first occurrence. *)
Fixpoint series_lookup (c : string) (row : Series) : option cell :=
  match row with
  | [] => None
  | (c', v) :: row' => if String.eqb c' c then Some v else series_lookup c row'
  end.

(** [df.iterrows()]. *)
Definition to_series (cols : list string) (cells : list cell) : Series :=
  zip cols cells.

Definition iterrows (df : DataFrame) : list (string * Series) :=
  map (λ r, (r.1, to_series (columns df) r.2)) (df_rows df).

(** [df[c]] as the list of its cells, one per row; a label that is not a
    column of the row gives [NaN] (the callers test [c in df.columns]
    first). *)
Definition cell_at (cols : list string) (cells : list cell) (c : string) : cell :=
  default NaN (series_lookup c (to_series cols cells)).

Definition df_column (df : DataFrame) (c : string) : list cell :=
  map (λ r, cell_at (columns df) r.2 c) (df_rows df).

(** [df[c].dtype], first occurrence of the label. *)
Fixpoint dtype_at (cols : list string) (dts : list dtype) (c : string) : dtype :=
  match cols, dts with
  | c' :: cols', dt :: dts' =>
      if String.eqb c' c then dt else dtype_at cols' dts' c
  | _, _ => object
  end.

Definition df_dtype (df : DataFrame) (c : string) : dtype :=
  dtype_at (columns df) (dtypes df) c.

(** [df[cols]]: projection on a list of existing columns, in the order of
    [cols]. *)
Definition df_select (df : DataFrame) (cols : list string) : DataFrame :=
  {| columns := cols;
     dtypes := map (df_dtype df) cols;
     df_rows := map (λ r, (r.1, map (cell_at (columns df) r.2) cols)) (df_rows df) |}.

(** [df[mask]]: the rows whose mask entry is [True]. *)
Fixpoint select_mask {A : Type} (xs : list A) (mask : list bool) : list A :=
  match xs, mask with
  | x :: xs', b :: mask' =>
      if b then x :: select_mask xs' mask' else select_mask xs' mask'
  | _, _ => []
  end.

Definition df_mask (df : DataFrame) (mask : list bool) : DataFrame :=
  {| columns := columns df;
     dtypes := dtypes df;
     df_rows := select_mask (df_rows df) mask |}.

(** ** Messages, exceptions and the log *)

Inductive fragment : Type :=
| Lit (s : string)          (* literal text *)
| FStr (s : string)         (* a string value *)
| FRepr (s : string)        (* the repr of a string value *)
| FNat (n : nat)            (* a number *)
| FList (l : list string).  (* a list of strings *)

Definition message : Type := list fragment.

Inductive exn : Type :=
| KeyError (key : string)
| IndexError
| AttributeError (msg : string)
| ValueError (msg : message)
| LibError (cls : string) (msg : string).

(** [str(e)]. *)
Definition exn_str (e : exn) : message :=
  match e with
  | KeyError k => [FRepr k]
  | IndexError => [Lit "list index out of range"]
  | AttributeError m => [FStr m]
  | ValueError m => m
  | LibError _ m => [FStr m]
  end.

Inductive level : Type := INFO | WARNING | ERROR.

Definition log_record : Type := level * message.

(** ** GEOparse objects and the dataset summary *)

Record GPL : Type := mkGPL {
  gpl_metadata : gmap string (list string)
}.

(** A dataset object as the program uses it.  The class is GEOparse's and
    not part of the sources: [name], [metadata], [phenotype_data] and
    [gpls] are attributes of every dataset, whereas [supplementary_files]
    is an attribute that the object handed to the program may lack
    ([None]); reading it then raises [AttributeError]. *)
Record GSE : Type := mkGSE {
  gse_name : string;
  gse_metadata : gmap string (list string);
  phenotype_data : DataFrame;
  supplementary_files : option (list string);
  gpls : gmap string GPL
}.

Record platform_info : Type := mkPlatform {
  platform_title : string;
  platform_technology : string;
  platform_organism : string
}.

Record Summary : Type := mkSummary {
  summary_gse_id : string;
  summary_title : string;
  summary_summary : string;
  summary_overall_design : string;
  summary_submission_date : string;
  summary_last_update_date : string;
  summary_pubmed_id : string;
  summary_platform_count : nat;
  summary_sample_count : nat;
  summary_supplementary_file_count : nat;
  summary_columns_in_metadata : list string;
  summary_platforms : option (gmap string platform_info);
  summary_sample_type_distribution : option (list (string * nat))
}.

(** ** The collaborators *)

Class Env : Type := {
  World : Type;
  Regex : Type;
  (** [Path(d) / name], [os.path.join(d, name)] *)
  path_join : string → string → string;
  (** [Path.exists] *)
  path_exists : World → string → bool;
  (** [Path.mkdir(parents=True, exist_ok=True)] *)
  mkdir : World → string → World * option exn;
  (** [shutil.copy2(src, dst)] *)
  copy2 : World → string → string → World * option exn;
  (** [GEOparse.get_GEO(geo, destdir)] *)
  get_GEO : World → string → string → World * (exn + GSE);
  (** [GEOparse.utils.download_from_url(url, filename)] *)
  download_from_url : World → string → string → World * option exn;
  (** [df.to_csv(path, sep="\t", index=True)] *)
  to_csv : World → DataFrame → string → World * option exn;
  (** [json.dump(summary, open(path, 'w'))] *)
  json_dump : World → Summary → string → World * option exn;
  (** [re.compile(pat, flags)]; the flag is [re.IGNORECASE] *)
  re_compile : bool → string → exn + Regex;
  (** [regex.search(s)] found a match *)
  re_search : Regex → string → bool
}.

(** ** Value counts *)

(** Modelled from the spec: [Series.value_counts()] is pandas code, absent
    from the sources.  The spec's ValueCount is "value → occurrence count,
    insertion-ordered by descending count (ties broken by first-encountered
    order)", absent cells excluded: the present values are tallied in order
    of first appearance, then sorted by decreasing count with a stable
    insertion sort. *)
Fixpoint tally_add (v : string) (acc : list (string * nat)) : list (string * nat) :=
  match acc with
  | [] => [(v, 1)]
  | (k, n) :: acc' =>
      if String.eqb k v then (k, S n) :: acc' else (k, n) :: tally_add v acc'
  end.

Definition tally_cell (acc : list (string * nat)) (c : cell) : list (string * nat) :=
  match c with
  | NaN => acc
  | Str v => tally_add v acc
  end.

Definition tally (cells : list cell) : list (string * nat) :=
  foldl tally_cell [] cells.

Fixpoint insert_desc (x : string * nat) (l : list (string * nat)) : list (string * nat) :=
  match l with
  | [] => [x]
  | y :: l' => if y.2 <=? x.2 then x :: l else y :: insert_desc x l'
  end.

(** Entries are inserted from the right, so that an entry stays before the
    later ones of the same count. *)
Definition sort_desc (l : list (string * nat)) : list (string * nat) :=
  foldr insert_desc [] l.

Definition value_counts (cells : list cell) : list (string * nat) :=
  sort_desc (tally cells).

(** ** The state-and-exception monad *)

Section Monad.
Context `{env : Env}.

Record state : Type := mkState {
  world : World;
  logs : list log_record
}.

Definition M (A : Type) : Type := state → state * (exn + A).

Definition ret {A : Type} (x : A) : M A := λ st, (st, inr x).

Definition bind {A B : Type} (m : M A) (f : A → M B) : M B :=
  λ st, match m st with
        | (st', inl e) => (st', inl e)
        | (st', inr x) => f x st'
        end.

Definition raise {A : Type} (e : exn) : M A := λ st, (st, inl e).

(** [try: body  except Exception as e: handler e]. *)
Definition try_except {A : Type} (body : M A) (handler : exn → M A) : M A :=
  λ st, match body st with
        | (st', inl e) => handler e st'
        | (st', inr x) => (st', inr x)
        end.

(** [logger.info], [logger.warning], [logger.error]. *)
Definition log (lv : level) (msg : message) : M unit :=
  λ st, (mkState (world st) (logs st ++ [(lv, msg)]), inr ()).

(** A call of a collaborator that returns nothing. *)
Definition io (f : World → World * option exn) : M unit :=
  λ st, match f (world st) with
        | (w, Some e) => (mkState w (logs st), inl e)
        | (w, None) => (mkState w (logs st), inr ())
        end.

(** A call of a collaborator that returns a value. *)
Definition io_val {A : Type} (f : World → World * (exn + A)) : M A :=
  λ st, match f (world st) with
        | (w, r) => (mkState w (logs st), r)
        end.

(** A query of the world. *)
Definition ask {A : Type} (f : World → A) : M A :=
  λ st, (st, inr (f (world st))).

(** [for x in xs: acc = body acc x]. *)
Fixpoint for_each {A S : Type} (body : S → A → M S) (xs : list A) (acc : S) : M S :=
  match xs with
  | [] => ret acc
  | x :: xs' => bind (body acc x) (for_each body xs')
  end.

End Monad.

Declare Scope py_scope.
Delimit Scope py_scope with py.
Notation "'let*' x ':=' m 'in' k" := (bind m (λ x, k))
  (at level 10, x name, m at level 100, k at level 200) : py_scope.
Notation "m '>>' k" := (bind m (λ _, k))
  (at level 90, right associativity) : py_scope.
Open Scope py_scope.

(** ** The program *)

Section Program.
Context `{env : Env}.

(** [d.get(key, ['N/A'])[0]] on a GEOparse metadata dictionary. *)
Definition metadata_first (md : gmap string (list string)) (key : string) : M string :=
  match default ["N/A"] (md !! key) with
  | x :: _ => ret x
  | [] => raise IndexError
  end.

(** [gse.supplementary_files]. *)
Definition no_supplementary_files : exn :=
  AttributeError "'GSE' object has no attribute 'supplementary_files'".

Definition get_supplementary_files (gse : GSE) : M (list string) :=
  match supplementary_files gse with
  | Some files => ret files
  | None => raise no_supplementary_files
  end.

(** [row[c]]. *)
Definition series_getitem (c : string) (row : Series) : M cell :=
  match series_lookup c row with
  | Some v => ret v
  | None => raise (KeyError c)
  end.

(** An optional argument that is written when present. *)
Definition save_csv (df : DataFrame) (output_file : option string) (what : string) : M unit :=
  match output_file with
  | Some f =>
      if PyStr.truthy f then
        io (λ w, to_csv w df f) >>
        log INFO [Lit what; Lit " saved to: "; FStr f]
      else ret ()
  | None => ret ()
  end.

(** *** class GEODataProcessor *)

Record GEODataProcessor : Type := mkProcessor {
  output_dir : string
}.

(** [GEODataProcessor.__init__]. *)
Definition init_processor (dir : string) : M GEODataProcessor :=
  io (λ w, mkdir w dir) >>
  log INFO [Lit "GEO Data Processor initialized with output dir: "; FStr dir] >>
  ret (mkProcessor dir).

Definition download_geo_dataset (self : GEODataProcessor) (gse_id : string)
    (destdir : option string) : M GSE :=
  let destdir := default (path_join (output_dir self) gse_id) destdir in
  log INFO [Lit "Downloading GEO dataset: "; FStr gse_id] >>
  try_except
    (let* gse := io_val (λ w, get_GEO w gse_id destdir) in
     log INFO [Lit "Successfully downloaded "; FStr gse_id] >>
     let* title := metadata_first (gse_metadata gse) "title" in
     log INFO [Lit "Dataset title: "; FStr title] >>
     log INFO [Lit "Number of samples: "; FNat (df_len (phenotype_data gse))] >>
     let* files := get_supplementary_files gse in
     log INFO [Lit "Number of supplementary files: "; FNat (length files)] >>
     ret gse)
    (λ e,
     log ERROR ([Lit "Error downloading "; FStr gse_id; Lit ": "] ++ exn_str e) >>
     raise e).

Definition download_one_file (out_dir : string) (downloaded_files : list string)
    (supp_file : string) : M (list string) :=
  try_except
    (let filename := PyStr.last_segment "/" supp_file in
     let local_path := path_join out_dir filename in
     log INFO [Lit "Downloading: "; FStr filename] >>
     io (λ w, download_from_url w supp_file local_path) >>
     log INFO [Lit "Successfully downloaded: "; FStr filename] >>
     ret (downloaded_files ++ [filename]))
    (λ e,
     log ERROR ([Lit "Failed to download "; FStr supp_file; Lit ": "] ++ exn_str e) >>
     ret downloaded_files).

Definition download_supplementary_files (self : GEODataProcessor) (gse : GSE)
    (out_dir : option string) : M (list string) :=
  let out_dir := default (output_dir self) out_dir in
  let* files := get_supplementary_files gse in
  match files with
  | [] =>
      log INFO [Lit "No supplementary files available for download"] >>
      ret []
  | files =>
      log INFO [Lit "Downloading "; FNat (length files); Lit " supplementary files..."] >>
      let* downloaded_files := for_each (download_one_file out_dir) files [] in
      log INFO [Lit "Downloaded "; FNat (length downloaded_files);
                Lit " supplementary files"] >>
      ret downloaded_files
  end.

Definition extract_metadata (self : GEODataProcessor) (gse : GSE)
    (selected_columns : option (list string)) (output_file : option string)
    : M DataFrame :=
  log INFO [Lit "Extracting metadata..."] >>
  let metadata_df := phenotype_data gse in
  log INFO [Lit "Total metadata columns: "; FNat (length (columns metadata_df))] >>
  log INFO [Lit "Available columns: "; FList (columns metadata_df)] >>
  let* metadata_df :=
    match selected_columns with
    | Some ((_ :: _) as selected_columns) =>
        let available_cols :=
          filter (λ col, col ∈ columns metadata_df) selected_columns in
        let missing_cols :=
          filter (λ col, col ∉ columns metadata_df) selected_columns in
        let* metadata_df :=
          match available_cols with
          | _ :: _ =>
              log INFO [Lit "Selected "; FNat (length available_cols);
                        Lit " columns from metadata: "; FList available_cols] >>
              ret (df_select metadata_df available_cols)
          | [] =>
              log WARNING [Lit "None of the specified columns found in metadata"] >>
              ret metadata_df
          end in
        match missing_cols with
        | _ :: _ =>
            log WARNING [Lit "Missing columns: "; FList missing_cols] >>
            ret metadata_df
        | [] => ret metadata_df
        end
    | _ => ret metadata_df
    end in
  save_csv metadata_df output_file "Metadata" >>
  ret metadata_df.

(** [series.str]: pandas refuses the accessor on a column that is not of
    text dtype, before any method of the accessor runs. *)
Definition no_str_accessor : exn :=
  AttributeError "Can only use .str accessor with string values!".

Definition str_accessor (dt : dtype) : M unit :=
  match dt with
  | object => ret ()
  | float64 => raise no_str_accessor
  end.

(** [series.str.contains(pat, case=case, na=False, regex=True)] on a
    column of dtype [dt]: once the accessor is granted, the pattern is
    compiled, with [re.IGNORECASE] unless [case]; a cell without a value
    gives the [na] value, [False]. *)
Definition str_contains (dt : dtype) (col : list cell) (pat : string)
    (case : bool) : M (list bool) :=
  str_accessor dt >>
  match re_compile (negb case) pat with
  | inl e => raise e
  | inr r =>
      ret (map (λ c, match c with
                     | Str s => re_search r s
                     | NaN => false
                     end) col)
  end.

Definition filter_samples_by_criteria (self : GEODataProcessor)
    (metadata_df : DataFrame) (filter_column filter_pattern : string)
    (case_sensitive : bool) : M DataFrame :=
  if negb (label_in filter_column (columns metadata_df)) then
    let available_cols := columns metadata_df in
    raise (ValueError [Lit "Column '"; FStr filter_column;
                       Lit "' not found in metadata. Available columns: ";
                       FList available_cols])
  else
    log INFO [Lit "Filtering samples on '"; FStr filter_column;
              Lit "' with pattern: '"; FStr filter_pattern; Lit "'"] >>
    let* mask :=
      if case_sensitive
      then str_contains (df_dtype metadata_df filter_column)
                        (df_column metadata_df filter_column) filter_pattern true
      else str_contains (df_dtype metadata_df filter_column)
                        (df_column metadata_df filter_column) filter_pattern false in
    let filtered_df := df_mask metadata_df mask in
    log INFO [Lit "Filtered from "; FNat (df_len metadata_df); Lit " to ";
              FNat (df_len filtered_df); Lit " samples"] >>
    (if df_len filtered_df =? 0
     then log WARNING [Lit "No samples found matching pattern '";
                       FStr filter_pattern; Lit "' in column '";
                       FStr filter_column; Lit "'"]
     else ret ()) >>
    ret filtered_df.

Definition get_unique_values (self : GEODataProcessor) (metadata_df : DataFrame)
    (column : string) : M (list (string * nat)) :=
  if negb (label_in column (columns metadata_df)) then
    raise (ValueError [Lit "Column '"; FStr column; Lit "' not found in metadata"])
  else
    let unique_values := value_counts (df_column metadata_df column) in
    log INFO [Lit "Unique values in '"; FStr column; Lit "' column:"] >>
    for_each (λ _ vc, log INFO [Lit "  "; FStr vc.1; Lit ": "; FNat vc.2])
             unique_values () >>
    ret unique_values.

Definition default_key_columns : list string :=
  ["title"; "geo_accession"; "source_name_ch1";
   "characteristics_ch1"; "description"; "supplementary_file"].

Definition create_sample_annotation (self : GEODataProcessor)
    (metadata_df : DataFrame) (key_columns : option (list string))
    (output_file : option string) : M DataFrame :=
  log INFO [Lit "Creating sample annotation..."] >>
  let key_columns := default default_key_columns key_columns in
  let available_cols := filter (λ col, col ∈ columns metadata_df) key_columns in
  let* annotation_df :=
    match available_cols with
    | _ :: _ =>
        log INFO [Lit "Created annotation with "; FNat (length available_cols);
                  Lit " columns: "; FList available_cols] >>
        ret (df_select metadata_df available_cols)
    | [] =>
        log INFO [Lit "Using all metadata columns for annotation"] >>
        ret metadata_df
    end in
  let annotation_df :=
    mkDataFrame (map (PyStr.replace " " "_") (columns annotation_df))
                (dtypes annotation_df) (df_rows annotation_df) in
  save_csv annotation_df output_file "Sample annotation" >>
  ret annotation_df.

(** The identifier of a row ([rename_supplementary_files], "Get identifier
    for renaming"). *)
Definition row_identifier (identifier_column : string) (row : Series)
    (geo_accession : cell) : cell :=
  match series_lookup identifier_column row with
  | Some v =>
      if notna v
      then Str (PyStr.replace "/" "_" (PyStr.replace " " "_" (str_of_cell v)))
      else geo_accession
  | None => geo_accession
  end.

(** The loop "Find supplementary file URL for this sample". *)
Fixpoint find_supp_url (row : Series) : option string :=
  match row with
  | [] => None
  | (col, v) :: row' =>
      if PyStr.contains "supplementary_file" col && notna v
      then Some (str_of_cell v)
      else find_supp_url row'
  end.

(** The block under [if supp_file_url:]. *)
Definition rename_file (source_dir out_dir : string)
    (renamed_files : gmap string string) (identifier : cell)
    (supp_file_url : string) : M (gmap string string) :=
  let original_filename := PyStr.last_segment "/" supp_file_url in
  let original_path := path_join source_dir original_filename in
  let* found := ask (λ w, path_exists w original_path) in
  if found : bool then
    let new_filename := str_of_cell identifier +:+ "-" +:+ original_filename in
    let new_path := path_join out_dir new_filename in
    io (λ w, copy2 w original_path new_path) >>
    let renamed_files := <[original_filename := new_filename]> renamed_files in
    log INFO [Lit "Renamed: "; FStr original_filename; Lit " -> ";
              FStr new_filename] >>
    ret renamed_files
  else
    log WARNING [Lit "Original file not found: "; FStr original_filename] >>
    ret renamed_files.

(** One iteration of the loop over [metadata_df.iterrows()]. *)
Definition rename_row (source_dir out_dir identifier_column : string)
    (renamed_files : gmap string string) (r : string * Series)
    : M (gmap string string) :=
  let '(index, row) := r in
  try_except
    (let* geo_accession := series_getitem "geo_accession" row in
     let identifier := row_identifier identifier_column row geo_accession in
     match find_supp_url row with
     | Some supp_file_url =>
         if PyStr.truthy supp_file_url
         then rename_file source_dir out_dir renamed_files identifier supp_file_url
         else ret renamed_files
     | None => ret renamed_files
     end)
    (λ e,
     log ERROR ([Lit "Error renaming file for "; FStr index; Lit ": "]
                ++ exn_str e) >>
     ret renamed_files).

Definition rename_supplementary_files (self : GEODataProcessor) (gse : GSE)
    (metadata_df : DataFrame) (source_dir out_dir identifier_column : string)
    : M (gmap string string) :=
  log INFO [Lit "Renaming supplementary files based on metadata..."] >>
  io (λ w, mkdir w out_dir) >>
  let* renamed_files :=
    for_each (rename_row source_dir out_dir identifier_column)
             (iterrows metadata_df) ∅ in
  log INFO [Lit "Renamed "; FNat (size renamed_files); Lit " files"] >>
  ret renamed_files.

(** The entries of [summary['platforms']], one per item of [gse.gpls]. *)
Definition platform_entry (platforms : gmap string platform_info)
    (item : string * GPL) : M (gmap string platform_info) :=
  let '(platform_id, platform) := item in
  let* title := metadata_first (gpl_metadata platform) "title" in
  let* technology := metadata_first (gpl_metadata platform) "technology" in
  let* organism := metadata_first (gpl_metadata platform) "organism" in
  ret (<[platform_id := mkPlatform title technology organism]> platforms).

Definition generate_dataset_summary (self : GEODataProcessor) (gse : GSE)
    (metadata_df : DataFrame) (output_file : option string) : M Summary :=
  log INFO [Lit "Generating dataset summary..."] >>
  let md := gse_metadata gse in
  let* title := metadata_first md "title" in
  let* summary_text := metadata_first md "summary" in
  let* overall_design := metadata_first md "overall_design" in
  let* submission_date := metadata_first md "submission_date" in
  let* last_update_date := metadata_first md "last_update_date" in
  let* pubmed_id := metadata_first md "pubmed_id" in
  let* files := get_supplementary_files gse in
  let* platforms :=
    if decide (gpls gse = ∅) then ret None
    else let* ps := for_each platform_entry (map_to_list (gpls gse)) ∅ in
         ret (Some ps) in
  let sample_types :=
    if label_in "source_name_ch1" (columns metadata_df)
    then Some (value_counts (df_column metadata_df "source_name_ch1"))
    else None in
  let summary :=
    {| summary_gse_id := gse_name gse;
       summary_title := title;
       summary_summary := summary_text;
       summary_overall_design := overall_design;
       summary_submission_date := submission_date;
       summary_last_update_date := last_update_date;
       summary_pubmed_id := pubmed_id;
       summary_platform_count := size (gpls gse);
       summary_sample_count := df_len metadata_df;
       summary_supplementary_file_count := length files;
       summary_columns_in_metadata := columns metadata_df;
       summary_platforms := platforms;
       summary_sample_type_distribution := sample_types |} in
  log INFO [Lit "=== Dataset Summary ==="] >>
  log INFO [Lit "GSE ID: "; FStr (summary_gse_id summary)] >>
  log INFO [Lit "Title: "; FStr (summary_title summary)] >>
  log INFO [Lit "Samples: "; FNat (summary_sample_count summary)] >>
  log INFO [Lit "Platforms: "; FNat (summary_platform_count summary)] >>
  log INFO [Lit "Supplementary files: ";
            FNat (summary_supplementary_file_count summary)] >>
  match summary_sample_type_distribution summary with
  | Some dist =>
      log INFO [Lit "Sample type distribution:"] >>
      for_each (λ _ vc, log INFO [Lit "  "; FStr vc.1; Lit ": "; FNat vc.2])
               dist ()
  | None => ret ()
  end >>
  match output_file with
  | Some f =>
      if PyStr.truthy f then
        io (λ w, json_dump w summary f) >>
        log INFO [Lit "Summary saved to: "; FStr f]
      else ret ()
  | None => ret ()
  end >>
  ret summary.

(** *** Batch processing *)

(** An entry of the dictionary that [process_multiple_datasets] returns:
    [{'status': 'success', ...}] or [{'status': 'error', 'error': ...}]. *)
Inductive batch_result : Type :=
| Success (gse_object : GSE) (metadata : DataFrame)
          (filtered_metadata : option DataFrame)
          (supplementary : list string) (summary : Summary)
          (output_directory : string)
| Failure (error : message).

(** [r['status']]. *)
Definition status (r : batch_result) : string :=
  match r with
  | Success _ _ _ _ _ _ => "success"
  | Failure _ => "error"
  end.

Definition rule : string :=
  "==================================================".

(** [f"\n{'='*50}"]. *)
Definition rule_after_newline : string := String "010" rule.

(** The block "Filter samples if pattern provided"; the value is that of
    [filtered_metadata] after the block: the assignment precedes the
    write of the filtered table, so only a failure of the filter itself
    leaves it [None]. *)
Definition batch_filter (processor : GEODataProcessor) (dataset_dir gse_id : string)
    (metadata : DataFrame) (filter_pattern : option string)
    (filter_column : string) : M (option DataFrame) :=
  match filter_pattern with
  | Some pat =>
      if PyStr.truthy pat && label_in filter_column (columns metadata) then
        let on_error (fm : option DataFrame) (e : exn) :=
          log ERROR ([Lit "Error filtering samples: "] ++ exn_str e) >>
          ret fm in
        try_except
          (let* filtered_metadata :=
             filter_samples_by_criteria processor metadata filter_column pat false in
           try_except
             (if 0 <? df_len filtered_metadata then
                let filtered_file :=
                  path_join dataset_dir (gse_id +:+ "_filtered_metadata.tsv") in
                io (λ w, to_csv w filtered_metadata filtered_file) >>
                ret (Some filtered_metadata)
              else ret (Some filtered_metadata))
             (on_error (Some filtered_metadata)))
          (on_error None)
      else ret None
  | None => ret None
  end.

(** The body of the [try] of one dataset, up to the entry it stores. *)
Definition process_dataset (base_path : string) (download_supplementary : bool)
    (filter_pattern : option string) (filter_column : string)
    (gse_id : string) : M batch_result :=
  let dataset_dir := path_join base_path gse_id in
  let* processor := init_processor dataset_dir in
  let* gse := download_geo_dataset processor gse_id None in
  let metadata_file := path_join dataset_dir (gse_id +:+ "_metadata.tsv") in
  let* metadata := extract_metadata processor gse None (Some metadata_file) in
  let* supplementary :=
    if download_supplementary
    then download_supplementary_files processor gse (Some dataset_dir)
    else ret [] in
  let* filtered_metadata :=
    batch_filter processor dataset_dir gse_id metadata filter_pattern filter_column in
  let summary_file := path_join dataset_dir (gse_id +:+ "_summary.json") in
  let* summary := generate_dataset_summary processor gse metadata (Some summary_file) in
  let annotation_file :=
    path_join dataset_dir (gse_id +:+ "_sample_annotation.tsv") in
  let* annotation :=
    create_sample_annotation processor metadata None (Some annotation_file) in
  ret (Success gse metadata filtered_metadata supplementary summary dataset_dir).

(** One iteration of [for gse_id in gse_ids]. *)
Definition batch_step (base_path : string) (download_supplementary : bool)
    (filter_pattern : option string) (filter_column : string)
    (results : gmap string batch_result) (gse_id : string)
    : M (gmap string batch_result) :=
  log INFO [Lit rule_after_newline] >>
  log INFO [Lit "Processing dataset: "; FStr gse_id] >>
  log INFO [Lit rule] >>
  try_except
    (let* entry :=
       process_dataset base_path download_supplementary filter_pattern
                       filter_column gse_id in
     let results := <[gse_id := entry]> results in
     log INFO [Lit "Successfully processed "; FStr gse_id] >>
     ret results)
    (λ e,
     log ERROR ([Lit "Error processing "; FStr gse_id; Lit ": "] ++ exn_str e) >>
     ret (<[gse_id := Failure (exn_str e)]> results)).

(** [successful] and [failed] of the batch summary. *)
Definition successful (results : gmap string batch_result) : nat :=
  length (filter (λ r, status r = "success") (map_to_list results).*2).

Definition failed (results : gmap string batch_result) : nat :=
  size results - successful results.

Definition process_multiple_datasets (gse_ids : list string)
    (output_base_dir : string) (download_supplementary : bool)
    (filter_pattern : option string) (filter_column : string)
    : M (gmap string batch_result) :=
  log INFO [Lit "Processing "; FNat (length gse_ids); Lit " datasets in batch..."] >>
  let base_path := output_base_dir in
  io (λ w, mkdir w base_path) >>
  let* results :=
    for_each (batch_step base_path download_supplementary filter_pattern
                         filter_column) gse_ids ∅ in
  log INFO [Lit rule_after_newline] >>
  log INFO [Lit "Batch processing completed!"] >>
  log INFO [Lit "Successful: "; FNat (successful results); Lit "/";
            FNat (length gse_ids)] >>
  log INFO [Lit "Failed: "; FNat (failed results); Lit "/";
            FNat (length gse_ids)] >>
  log INFO [Lit "Results saved in: "; FStr output_base_dir] >>
  log INFO [Lit rule] >>
  ret results.
(** *** The workflow of a single dataset *)

(** The dictionary that [analyze_geo_dataset] returns. *)
Record analysis : Type := mkAnalysis {
  analysis_gse_id : string;
  analysis_gse_object : GSE;
  analysis_metadata : DataFrame;
  analysis_filtered_metadata : option DataFrame;
  analysis_supplementary_files : list string;
  analysis_summary : Summary;
  analysis_annotation : DataFrame;
  analysis_output_directory : string
}.

(** The block "Filter samples if requested" of [analyze_geo_dataset]; it
    differs from the one of the batch by the missing test of the column. *)
Definition analyze_filter (processor : GEODataProcessor) (out_dir gse_id : string)
    (metadata : DataFrame) (filter_pattern : option string)
    (filter_column : string) : M (option DataFrame) :=
  match filter_pattern with
  | Some pat =>
      if PyStr.truthy pat then
        let on_error (fm : option DataFrame) (e : exn) :=
          log ERROR ([Lit "Error filtering samples: "] ++ exn_str e) >>
          ret fm in
        try_except
          (let* filtered_metadata :=
             filter_samples_by_criteria processor metadata filter_column pat false in
           try_except
             (if 0 <? df_len filtered_metadata then
                let filtered_file :=
                  path_join out_dir (gse_id +:+ "_filtered_metadata.tsv") in
                io (λ w, to_csv w filtered_metadata filtered_file) >>
                ret (Some filtered_metadata)
              else ret (Some filtered_metadata))
             (on_error (Some filtered_metadata)))
          (on_error None)
      else ret None
  | None => ret None
  end.

Definition analyze_geo_dataset (gse_id out_dir : string)
    (download_supplementary : bool) (filter_pattern : option string)
    (filter_column : string) (selected_columns : option (list string))
    : M analysis :=
  log INFO [Lit "Starting complete analysis for "; FStr gse_id] >>
  let* processor := init_processor out_dir in
  let* gse := download_geo_dataset processor gse_id None in
  let metadata_file := path_join out_dir (gse_id +:+ "_metadata.tsv") in
  let* metadata :=
    extract_metadata processor gse selected_columns (Some metadata_file) in
  let* supplementary :=
    if download_supplementary
    then download_supplementary_files processor gse (Some out_dir)
    else ret [] in
  let* filtered_metadata :=
    analyze_filter processor out_dir gse_id metadata filter_pattern filter_column in
  let summary_file := path_join out_dir (gse_id +:+ "_summary.json") in
  let* summary := generate_dataset_summary processor gse metadata (Some summary_file) in
  let annotation_file := path_join out_dir (gse_id +:+ "_sample_annotation.tsv") in
  let* annotation :=
    create_sample_annotation processor metadata None (Some annotation_file) in
  let results := mkAnalysis gse_id gse metadata filtered_metadata supplementary
                            summary annotation out_dir in
  log INFO [Lit "Analysis completed for "; FStr gse_id] >>
  ret results.
End Program.

(** ** The legacy script *)

Module Legacy.

(** [source_name = row['source_name_ch1'].replace(' ', '_')]. *)
Definition source_name (source_name_ch1 : string) : string :=
  PyStr.replace " " "_" source_name_ch1.

End Legacy.

(** ** The identifier as the specification words it *)

Module Spec.

Definition is_whitespace (c : ascii) : bool :=
  bool_decide (c ∈ [" "; "009"; "010"; "011"; "012"; "013"]%char).

Definition is_path_separator (c : ascii) : bool :=
  bool_decide (c ∈ ["/"; "092"]%char).

(** "replace whitespace runs and path-separator characters with a single
    underscore": a maximal run of whitespace gives one underscore, a path
    separator gives one underscore.  [in_run] tells that the previous
    character was whitespace. *)
Fixpoint sanitize_from (in_run : bool) (s : string) : string :=
  match s with
  | EmptyString => EmptyString
  | String c s' =>
      if is_whitespace c then
        if in_run then sanitize_from true s'
        else String "_" (sanitize_from true s')
      else if is_path_separator c then String "_" (sanitize_from false s')
      else String c (sanitize_from false s')
  end.

Definition sanitize (s : string) : string := sanitize_from false s.

End Spec.

(** ** A concrete world

    A small file store and remote archive to run the program on: the store
    is the set of its paths, a path of [locked] cannot be written, the
    archive [remote] holds the datasets that can be fetched and [hosted] the
    URLs that can be downloaded.  Its regular expressions are the literal
    ones (patterns without metacharacters): a search is a substring test,
    after folding ASCII letters to lower case under [re.IGNORECASE]. *)

Module Demo.

Record store : Type := mkStore {
  files : gset string;
  locked : gset string;
  remote : gmap string GSE;
  hosted : gset string
}.

Definition write (w : store) (path : string) : store * option exn :=
  if decide (path ∈ locked w)
  then (w, Some (LibError "PermissionError" path))
  else (mkStore ({[path]} ∪ files w) (locked w) (remote w) (hosted w), None).

Definition lower (c : ascii) : ascii :=
  let n := nat_of_ascii c in
  if (65 <=? n) && (n <=? 90) then ascii_of_nat (n + 32) else c.

Fixpoint lower_string (s : string) : string :=
  match s with
  | EmptyString => EmptyString
  | String c s' => String (lower c) (lower_string s')
  end.

#[export] Instance demo_env : Env := {|
  World := store;
  Regex := bool * string;
  path_join := λ d name, d +:+ "/" +:+ name;
  path_exists := λ w p, bool_decide (p ∈ files w);
  mkdir := write;
  copy2 := λ w src dst,
    if decide (src ∈ files w) then write w dst
    else (w, Some (LibError "FileNotFoundError" src));
  get_GEO := λ w geo destdir,
    match remote w !! geo with
    | Some gse => (w, inr gse)
    | None => (w, inl (LibError "NetworkError" geo))
    end;
  download_from_url := λ w url filename,
    if decide (url ∈ hosted w) then write w filename
    else (w, Some (LibError "NetworkError" url));
  to_csv := λ w df path, write w path;
  json_dump := λ w s path, write w path;
  re_compile := λ ignorecase pat, inr (ignorecase, pat);
  re_search := λ r s,
    if r.1 then PyStr.contains (lower_string r.2) (lower_string s)
    else PyStr.contains r.2 s
|}.


(** The table of the specification's scenario. *)
Definition scenario_columns : list string :=
  ["geo_accession"; "title"; "source_name_ch1"; "supplementary_file_1"].

Definition scenario_table : DataFrame :=
  {| columns := scenario_columns;
     dtypes := [object; object; object; object];
     df_rows :=
       [("GSM1", [Str "GSM1"; Str "H3K4me3 ChIP"; Str "liver tissue";
                  Str "http://x/a.txt.gz"]);
        ("GSM2", [Str "GSM2"; Str "Input control"; Str EmptyString;
                  Str "http://x/b.txt.gz"])] |}.

Definition scenario_gse (name : string) : GSE :=
  {| gse_name := name;
     gse_metadata := {[ "title" := ["A study"] ]};
     phenotype_data := scenario_table;
     supplementary_files := Some [];
     gpls := ∅ |}.

(** A store that holds the two downloaded files in [dl]. *)
Definition scenario_world : store :=
  {| files := {[ "dl/a.txt.gz"; "dl/b.txt.gz" ]};
     locked := ∅;
     remote := {[ "A" := scenario_gse "A" ]};
     hosted := ∅ |}.

(** A table whose rows meet every outcome of the correlation: a copy, a
    file that was not downloaded, a destination that cannot be written, a
    row without URL, and a second row for an already renamed file. *)
Definition mixed_table : DataFrame :=
  {| columns := scenario_columns;
     dtypes := [object; object; object; object];
     df_rows :=
       [("GSM1", [Str "GSM1"; Str "H3K4me3 ChIP"; Str "liver tissue";
                  Str "http://x/a.txt.gz"]);
        ("GSM2", [Str "GSM2"; Str "Input control"; Str "kidney";
                  Str "http://x/c.txt.gz"]);
        ("GSM3", [Str "GSM3"; Str "H3K27ac ChIP"; Str "lung";
                  Str "http://x/b.txt.gz"]);
        ("GSM4", [Str "GSM4"; Str "Input control"; Str "heart"; NaN]);
        ("GSM5", [Str "GSM5"; Str "H3K9me3 ChIP"; NaN;
                  Str "http://x/a.txt.gz"])] |}.

Definition mixed_world : store :=
  {| files := {[ "dl/a.txt.gz"; "dl/b.txt.gz" ]};
     locked := {[ "renamed/lung-b.txt.gz" ]};
     remote := ∅;
     hosted := ∅ |}.


(** An archive whose dataset "U" has an empty list of titles. *)
Definition untitled_gse : GSE :=
  {| gse_name := "U";
     gse_metadata := {[ "title" := [] ]};
     phenotype_data := scenario_table;
     supplementary_files := Some [];
     gpls := ∅ |}.

Definition untitled_world : store :=
  {| files := ∅; locked := ∅; remote := {[ "U" := untitled_gse ]}; hosted := ∅ |}.

(** An archive whose dataset "G" is an object without the attribute
    [supplementary_files]. *)
Definition bare_gse : GSE :=
  {| gse_name := "G";
     gse_metadata := {[ "title" := ["A study"] ]};
     phenotype_data := scenario_table;
     supplementary_files := None;
     gpls := ∅ |}.

Definition bare_world : store :=
  {| files := ∅; locked := ∅; remote := {[ "G" := bare_gse ]}; hosted := ∅ |}.

(** A dataset with two supplementary files, of which the archive hosts
    the second only. *)
Definition hosted_gse : GSE :=
  {| gse_name := "H";
     gse_metadata := ∅;
     phenotype_data := scenario_table;
     supplementary_files := Some ["http://x/a.txt.gz"; "http://x/b.txt.gz"];
     gpls := ∅ |}.

Definition hosted_world : store :=
  {| files := ∅; locked := ∅; remote := {[ "H" := hosted_gse ]};
     hosted := {[ "http://x/b.txt.gz" ]} |}.

Definition start (w : store) : state := mkState w [].

Definition processor : GEODataProcessor := mkProcessor "out".

End Demo.

(** ** Vocabulary of the statements *)

(** The character that [rename_supplementary_files] writes for [c]. *)
Definition sanitized_char (c : ascii) : ascii :=
  if bool_decide (c = " "%char ∨ c = "/"%char) then "_"%char else c.



(** A message that lists the columns [cols]. *)
Definition lists_columns (cols : list string) (msg : message) : Prop :=
  FList cols ∈ msg.

(** A message that interpolates no list at all. *)
Definition lists_nothing (msg : message) : Prop :=
  ∀ l, FList l ∉ msg.




(** The characters of a string. *)
Definition chars (s : string) : list ascii := list_ascii_of_string s.


Section Vocabulary.
Context `{env : Env}.

(** The records that a computation appends to the log. *)
Definition logged {A : Type} (m : M A) (st : state) : list log_record :=
  drop (length (logs st)) (logs (m st).1).

(** What a row asks to copy in the world [w]: the original file name and
    the new one, when the row has a [geo_accession], a non-empty URL and
    its file is in [source_dir]. *)
Definition copy_attempt (source_dir identifier_column : string) (w : World)
    (row : Series) : option (string * string) :=
  match series_lookup "geo_accession" row, find_supp_url row with
  | Some geo_accession, Some url =>
      let original_filename := PyStr.last_segment "/" url in
      if PyStr.truthy url
         && path_exists w (path_join source_dir original_filename)
      then Some (original_filename,
                 str_of_cell (row_identifier identifier_column row geo_accession)
                 +:+ "-" +:+ original_filename)
      else None
  | _, _ => None
  end.

(** The copy of a row and the world after it: the pair of names when
    [shutil.copy2] returned, nothing when there was no attempt or the copy
    raised. *)
Definition row_copy (source_dir out_dir identifier_column : string) (w : World)
    (row : Series) : option (string * string) * World :=
  match copy_attempt source_dir identifier_column w row with
  | Some (original_filename, new_filename) =>
      match copy2 w (path_join source_dir original_filename)
                    (path_join out_dir new_filename) with
      | (w', None) => (Some (original_filename, new_filename), w')
      | (w', Some _) => (None, w')
      end
  | None => (None, w)
  end.

(** The successfully copied rows of a table, in order, from the world
    [w]. *)
Fixpoint copied (source_dir out_dir identifier_column : string) (w : World)
    (rows : list (string * Series)) : list (string * string) :=
  match rows with
  | [] => []
  | r :: rows' =>
      let '(p, w') := row_copy source_dir out_dir identifier_column w r.2 in
      option_list p ++ copied source_dir out_dir identifier_column w' rows'
  end.


(** A cell in which the compiled pattern finds a match. *)
Definition cell_matches (r : Regex) (c : cell) : Prop :=
  ∃ s, c = Str s ∧ re_search r s = true.

#[global] Instance cell_matches_dec r c : Decision (cell_matches r c).
Proof.
  unfold cell_matches. destruct c as [|s].
  - right. by intros (s & ? & ?).
  - destruct (decide (re_search r s = true)) as [Hs|Hs].
    + left. by exists s.
    + right. by intros (s' & [= <-] & ?).
Defined.

(** The state in which the [try] of a dataset starts: the three records
    that open the iteration are in the log. *)
Definition entered (gse_id : string) (st : state) : state :=
  mkState (world st)
          (((logs st ++ [(INFO, [Lit rule_after_newline])])
            ++ [(INFO, [Lit "Processing dataset: "; FStr gse_id])])
           ++ [(INFO, [Lit rule])]).

(** The state in which the loop of [process_multiple_datasets] starts,
    the base directory made and the world being [w]. *)
Definition batch_start (gse_ids : list string) (st : state) (w : World) : state :=
  mkState w (logs st ++ [(INFO, [Lit "Processing "; FNat (length gse_ids);
                                 Lit " datasets in batch..."])]).

(** The entry that an iteration which starts in [st] stores for
    [gse_id]. *)
Definition outcome (base_path : string) (download_supplementary : bool)
    (filter_pattern : option string) (filter_column : string)
    (st : state) (gse_id : string) : batch_result :=
  match process_dataset base_path download_supplementary filter_pattern
                        filter_column gse_id (entered gse_id st) with
  | (_, inr entry) => entry
  | (_, inl e) => Failure (exn_str e)
  end.

(** A dictionary after the assignments [d[k] = v] of a list, in order. *)
Definition assign_all {V : Type} (d : gmap string V) (kvs : list (string * V))
    : gmap string V :=
  foldl (λ d kv, <[kv.1 := kv.2]> d) d kvs.

End Vocabulary.

(** * Properties *)

(** ** Strings *)

Lemma replace_chars (old new : ascii) (s : string) :
  list_ascii_of_string (PyStr.replace old new s)
  = map (λ c, if Ascii.eqb c old then new else c) (list_ascii_of_string s).
Proof.
  induction s as [|c s IH]; simpl; [done|]. by rewrite IH.
Qed.

(** ** The identifier of a row *)

Lemma sanitize_twice (c : ascii) :
  (let c' := if Ascii.eqb c " " then "_"%char else c in
   if Ascii.eqb c' "/" then "_"%char else c') = sanitized_char c.
Proof.
  unfold sanitized_char. cbv zeta.
  destruct (Ascii.eqb_spec c " ") as [->|Hs].
  - rewrite bool_decide_eq_true_2 by (by left). done.
  - destruct (Ascii.eqb_spec c "/") as [->|Hp].
    + rewrite bool_decide_eq_true_2 by (by right). done.
    + rewrite bool_decide_eq_false_2 by (intros [?|?]; congruence). done.
Qed.

(** C2, as amended: when the identifier column holds a value, the
    identifier is that value with every space and every slash replaced,
    one by one, by an underscore; all other characters, other whitespace
    included, are kept. *)
Theorem identifier_replaces_each_space_and_slash
    (identifier_column : string) (row : Series) (geo_accession : cell)
    (value : string) :
  series_lookup identifier_column row = Some (Str value) →
  ∃ identifier,
    row_identifier identifier_column row geo_accession = Str identifier
    ∧ list_ascii_of_string identifier
      = map sanitized_char (list_ascii_of_string value).
Proof.
  intros Hrow. unfold row_identifier. rewrite Hrow. simpl.
  eexists; split; [reflexivity|].
  rewrite !replace_chars, map_map.
  apply map_ext. intros c. apply sanitize_twice.
Qed.

Lemma identifier_replaces_each_space_and_slash_witness :
  ∃ identifier,
    row_identifier "source_name_ch1"
      [("geo_accession", Str "GSM1"); ("source_name_ch1", Str "liver  tissue/a")]
      (Str "GSM1") = Str identifier
    ∧ list_ascii_of_string identifier
      = map sanitized_char (list_ascii_of_string "liver  tissue/a").
Proof.
  apply (identifier_replaces_each_space_and_slash "source_name_ch1"
           [("geo_accession", Str "GSM1");
            ("source_name_ch1", Str "liver  tissue/a")]
           (Str "GSM1") "liver  tissue/a").
  reflexivity.
Defined.

(** C2, as stated, fails: a run of two spaces gives two underscores, where
    the specification's wording gives one. *)
Lemma identifier_whitespace_run_counterexample :
  let row := [("geo_accession", Str "GSM1"); ("source_name_ch1", Str "a  b")] in
  series_lookup "source_name_ch1" row = Some (Str "a  b")
  ∧ row_identifier "source_name_ch1" row (Str "GSM1") = Str "a__b"
  ∧ Spec.sanitize "a  b" = "a_b"
  ∧ row_identifier "source_name_ch1" row (Str "GSM1")
    ≠ Str (Spec.sanitize "a  b").
Proof. repeat split. discriminate. Qed.

(** The legacy script replaces the spaces only. *)
Lemma legacy_source_name_chars (s : string) :
  list_ascii_of_string (Legacy.source_name s)
  = map (λ c, if Ascii.eqb c " " then "_"%char else c) (list_ascii_of_string s).
Proof. apply replace_chars. Qed.

(** Membership in a list that is written out. *)
Ltac in_list :=
  repeat first [apply list_elem_of_here | apply list_elem_of_further].

(** ** The monad *)

Section MonadFacts.
Context `{env : Env}.

Lemma for_each_app {A S : Type} (body : S → A → M S) (xs ys : list A)
    (acc : S) (st : state) :
  for_each body (xs ++ ys) acc st
  = match for_each body xs acc st with
    | (st', inr acc') => for_each body ys acc' st'
    | (st', inl e) => (st', inl e)
    end.
Proof.
  revert acc st. induction xs as [|x xs IH]; intros acc st; simpl; [done|].
  unfold bind. destruct (body acc x st) as [st' [e|acc']]; [done|]. apply IH.
Qed.

(** A loop whose body catches its exceptions ends normally. *)
Lemma for_each_returns {A S : Type} (body : S → A → M S) :
  (∀ acc x st, ∃ st' acc', body acc x st = (st', inr acc')) →
  ∀ xs acc st, ∃ st' acc', for_each body xs acc st = (st', inr acc').
Proof.
  intros Hbody xs. induction xs as [|x xs IH]; intros acc st; simpl.
  - by eexists _, _.
  - unfold bind. destruct (Hbody acc x st) as (st' & acc' & ->). apply IH.
Qed.

End MonadFacts.

(** ** Correlation of rows and files *)

Section Correlation.
Context `{env : Env}.
Implicit Types (row : Series) (renamed_files : gmap string string) (st : state).

(** One iteration never raises; it assigns the entry of the row when, and
    only when, the row was copied, and leaves the world as the copy left
    it. *)
Lemma rename_row_step source_dir out_dir identifier_column renamed_files
    index row st :
  ∃ st',
    rename_row source_dir out_dir identifier_column renamed_files (index, row) st
    = (st', inr (assign_all renamed_files
                   (option_list
                      (row_copy source_dir out_dir identifier_column
                                (world st) row).1)))
    ∧ world st'
      = (row_copy source_dir out_dir identifier_column (world st) row).2.
Proof.
  unfold rename_row, row_copy, copy_attempt, try_except, bind, series_getitem.
  destruct (series_lookup "geo_accession" row) as [geo_accession|]; simpl;
    [|by eexists].
  destruct (find_supp_url row) as [url|]; simpl; [|by eexists].
  destruct (PyStr.truthy url); simpl; [|by eexists].
  unfold rename_file, bind, ask, io. simpl.
  destruct (path_exists (world st) _); simpl; [|by eexists].
  destruct (copy2 (world st) _ _) as [w' [e|]]; simpl; by eexists.
Qed.

Lemma rename_loop source_dir out_dir identifier_column rows renamed_files st :
  ∃ st',
    for_each (rename_row source_dir out_dir identifier_column) rows
             renamed_files st
    = (st', inr (assign_all renamed_files
                   (copied source_dir out_dir identifier_column (world st) rows))).
Proof.
  revert renamed_files st.
  induction rows as [|[index row] rows IH]; intros renamed_files st;
    cbn [for_each copied snd].
  - by eexists.
  - unfold bind at 1.
    destruct (rename_row_step source_dir out_dir identifier_column
                renamed_files index row st) as (st1 & -> & Hw).
    destruct (row_copy _ _ _ (world st) row) as [p w1]. simpl in *. subst w1.
    destruct (IH (assign_all renamed_files (option_list p)) st1) as (st' & ->).
    eexists. f_equal. f_equal. unfold assign_all. by rewrite foldl_app.
Qed.

Lemma assign_all_lookup {V : Type} (d : gmap string V) (kvs : list (string * V))
    (k : string) (v : V) :
  assign_all d kvs !! k = Some v → (k, v) ∈ kvs ∨ d !! k = Some v.
Proof.
  revert d. induction kvs as [|[k' v'] kvs IH]; intros d; simpl; [by right|].
  intros H. destruct (IH _ H) as [Hin|Hd].
  - left. by right.
  - simpl in Hd. destruct (decide (k' = k)) as [->|Hne].
    + rewrite lookup_insert_eq in Hd. injection Hd as ->. left. left.
    + rewrite lookup_insert_ne in Hd by done. by right.
Qed.

Lemma assign_all_dom {V : Type} (d : gmap string V) (kvs : list (string * V))
    (k : string) :
  is_Some (assign_all d kvs !! k) ↔ k ∈ kvs.*1 ∨ is_Some (d !! k).
Proof.
  revert d. induction kvs as [|[k' v'] kvs IH]; intros d; simpl.
  - rewrite elem_of_nil. tauto.
  - rewrite IH, elem_of_cons. simpl.
    destruct (decide (k' = k)) as [->|Hne].
    + rewrite lookup_insert_eq. split; [intros _|intros _; right; by eexists].
      by left; left.
    + rewrite lookup_insert_ne by done. split; [intros [?|?]|intros [[?|?]|?]]; auto.
      congruence.
Qed.


Lemma assign_all_last {V : Type} (d : gmap string V) (pre post : list (string * V))
    (k : string) (v : V) :
  k ∉ post.*1 → assign_all d (pre ++ (k, v) :: post) !! k = Some v.
Proof.
  intros Hpost. unfold assign_all. rewrite foldl_app. simpl.
  generalize (foldl (λ d kv, <[kv.1:=kv.2]> d) d pre). intros d'.
  assert (Hd : <[k:=v]> d' !! k = Some v) by apply lookup_insert_eq.
  revert Hd. generalize (<[k:=v]> d'). clear d'.
  induction post as [|[k' v'] post IH]; intros d' Hd; simpl; [done|].
  rewrite fmap_cons, not_elem_of_cons in Hpost. destruct Hpost as [Hne Hpost].
  apply IH; [done|]. simpl in *. by rewrite lookup_insert_ne.
Qed.

Lemma find_supp_url_spec row :
  match find_supp_url row with
  | Some url =>
      ∃ pre col post,
        row = pre ++ (col, Str url) :: post
        ∧ PyStr.contains "supplementary_file" col = true
        ∧ Forall (λ cv, PyStr.contains "supplementary_file" cv.1 && notna cv.2
                        = false) pre
  | None =>
      Forall (λ cv, PyStr.contains "supplementary_file" cv.1 && notna cv.2
                    = false) row
  end.
Proof.
  induction row as [|[col v] row IH]; simpl; [done|].
  destruct (PyStr.contains "supplementary_file" col && notna v) eqn:Hm.
  - apply andb_true_iff in Hm as [Hc Hv]. destruct v as [|url]; [done|].
    by exists [], col, row.
  - destruct (find_supp_url row) as [url|].
    + destruct IH as (pre & col' & post & -> & Hc & Hpre).
      exists ((col, v) :: pre), col', post. split_and!; [done|done|].
      by constructor.
    + by constructor.
Qed.

(** C1, as amended: when the identifier column is missing from the row or
    holds no value (NaN), the identifier is the row's [geo_accession], so
    that a row of accession [k] whose file is in [source_dir] is copied
    to, and recorded under, the name [k-originalFilename]. *)
Theorem identifier_falls_back_to_accession
    source_dir out_dir identifier_column renamed_files index row st
    (k url : string) (w' : World) :
  series_lookup identifier_column row = None
    ∨ series_lookup identifier_column row = Some NaN →
  series_lookup "geo_accession" row = Some (Str k) →
  find_supp_url row = Some url →
  PyStr.truthy url = true →
  let original_filename := PyStr.last_segment "/" url in
  let new_filename := k +:+ "-" +:+ original_filename in
  path_exists (world st) (path_join source_dir original_filename) = true →
  copy2 (world st) (path_join source_dir original_filename)
        (path_join out_dir new_filename) = (w', None) →
  row_identifier identifier_column row (Str k) = Str k
  ∧ ∃ st',
      rename_row source_dir out_dir identifier_column renamed_files
                 (index, row) st
      = (st', inr (<[original_filename := new_filename]> renamed_files))
      ∧ world st' = w'.
Proof.
  intros Habsent Hkey Hurl Htruthy original_filename new_filename Hexists Hcopy.
  assert (Hid : row_identifier identifier_column row (Str k) = Str k).
  { unfold row_identifier. by destruct Habsent as [-> | ->]. }
  split; [done|].
  destruct (rename_row_step source_dir out_dir identifier_column
              renamed_files index row st) as (st' & Hrow & Hworld).
  exists st'. revert Hrow Hworld.
  unfold row_copy, copy_attempt.
  rewrite Hkey, Hurl, Htruthy, Hid. fold original_filename.
  rewrite Hexists. simpl. fold new_filename. rewrite Hcopy. simpl.
  by intros -> ->.
Qed.

(** C3, as amended: the URL of a row is the value of the first column, in
    column order, whose name contains "supplementary_file" and whose value
    is present; when there is none, the iteration returns the mapping it
    received, does not raise and leaves the file store untouched. *)
Theorem supplementary_url_is_first_present_match row :
  match find_supp_url row with
  | Some url =>
      ∃ pre col post,
        row = pre ++ (col, Str url) :: post
        ∧ PyStr.contains "supplementary_file" col = true
        ∧ Forall (λ cv, PyStr.contains "supplementary_file" cv.1 && notna cv.2
                        = false) pre
  | None =>
      Forall (λ cv, PyStr.contains "supplementary_file" cv.1 && notna cv.2
                    = false) row
      ∧ ∀ source_dir out_dir identifier_column renamed_files index st,
          ∃ st',
            rename_row source_dir out_dir identifier_column renamed_files
                       (index, row) st = (st', inr renamed_files)
            ∧ world st' = world st
  end.
Proof.
  pose proof (find_supp_url_spec row) as Hspec.
  destruct (find_supp_url row) as [url|] eqn:Hurl; [done|].
  split; [done|].
  intros source_dir out_dir identifier_column renamed_files index st.
  destruct (rename_row_step source_dir out_dir identifier_column
              renamed_files index row st) as (st' & Hrow & Hworld).
  exists st'. revert Hrow Hworld. unfold row_copy, copy_attempt.
  rewrite Hurl. by destruct (series_lookup "geo_accession" row).
Qed.

(** C4, as amended: when the output directory can be made, the call
    returns a mapping whatever happens to the rows; the mapping is the
    dictionary of the successfully copied rows, assigned in row order:
    each of its entries is the pair of a copied row, every copied file
    name is one of its keys, and a copied row has its own entry unless a
    later copied row has the same original file name. *)
Theorem rename_mapping_of_copied_rows
    self gse metadata_df source_dir out_dir identifier_column st (w1 : World) :
  mkdir (world st) out_dir = (w1, None) →
  let rows := copied source_dir out_dir identifier_column w1
                     (iterrows metadata_df) in
  ∃ st' renamed_files,
    rename_supplementary_files self gse metadata_df source_dir out_dir
                               identifier_column st
    = (st', inr renamed_files)
    ∧ renamed_files = assign_all ∅ rows
    ∧ (∀ o n, renamed_files !! o = Some n → (o, n) ∈ rows)
    ∧ (∀ o, o ∈ rows.*1 → is_Some (renamed_files !! o))
    ∧ (∀ pre o n post, rows = pre ++ (o, n) :: post → o ∉ post.*1 →
         renamed_files !! o = Some n).
Proof.
  intros Hmkdir rows.
  unfold rename_supplementary_files, bind, log, io. simpl. rewrite Hmkdir.
  match goal with
  | |- context [for_each ?body ?xs ?acc ?s] =>
      destruct (rename_loop source_dir out_dir identifier_column xs acc s)
        as (st1 & Hloop)
  end.
  simpl in Hloop. rewrite Hloop. fold rows.
  eexists _, _. split; [reflexivity|]. split; [done|]. split_and!.
  - intros o n Hlook. apply assign_all_lookup in Hlook as [?|Hempty]; [done|].
    by rewrite lookup_empty in Hempty.
  - intros o Ho. apply assign_all_dom. by left.
  - intros pre o n post -> Hpost. by apply assign_all_last.
Qed.

End Correlation.

(** *** The correlation on the concrete world *)

Lemma identifier_falls_back_to_accession_witness :
  let row := [("geo_accession", Str "GSM2"); ("title", Str "Input control");
              ("source_name_ch1", NaN);
              ("supplementary_file_1", Str "http://x/b.txt.gz")] in
  ∃ w',
    row_identifier "source_name_ch1" row (Str "GSM2") = Str "GSM2"
    ∧ ∃ st',
        rename_row "dl" "renamed" "source_name_ch1" ∅ ("GSM2", row)
                   (Demo.start Demo.scenario_world)
        = (st', inr (<["b.txt.gz" := "GSM2-b.txt.gz"]> ∅))
        ∧ world st' = w'.
Proof.
  intros row. eexists.
  apply (identifier_falls_back_to_accession (env := Demo.demo_env)
           "dl" "renamed" "source_name_ch1" ∅ "GSM2" row
           (Demo.start Demo.scenario_world) "GSM2" "http://x/b.txt.gz").
  - right. reflexivity.
  - reflexivity.
  - reflexivity.
  - reflexivity.
  - vm_compute. reflexivity.
  - vm_compute. reflexivity.
Defined.

(** C1, as stated, fails on the scenario of the specification: the blank
    [source_name_ch1] of GSM2 is a present value, the identifier is the
    empty string and [b.txt.gz] is renamed [-b.txt.gz], not
    [GSM2-b.txt.gz]. *)
Lemma blank_identifier_counterexample :
  let out := rename_supplementary_files Demo.processor (Demo.scenario_gse "A")
               Demo.scenario_table "dl" "renamed" "source_name_ch1"
               (Demo.start Demo.scenario_world) in
  match out.2 with
  | inr renamed_files =>
      map_to_list renamed_files
      = [("a.txt.gz", "liver_tissue-a.txt.gz"); ("b.txt.gz", "-b.txt.gz")]
      ∧ renamed_files !! "b.txt.gz" = Some "-b.txt.gz"
      ∧ renamed_files !! "b.txt.gz" ≠ Some "GSM2-b.txt.gz"
  | inl _ => False
  end.
Proof. vm_compute. split_and!; [reflexivity|reflexivity|discriminate]. Qed.

(** C3, as stated, fails on its last part: a row without URL is skipped in
    silence.  The iteration appends nothing to the log, and the log of the
    whole call has its first and last records only; the program keeps no
    count of the skipped rows. *)
Lemma skipped_row_not_logged_counterexample :
  let row := [("geo_accession", Str "GSM4"); ("title", Str "Input control");
              ("source_name_ch1", Str "heart"); ("supplementary_file_1", NaN)] in
  let table := {| columns := Demo.scenario_columns;
                  dtypes := [object; object; object; object];
                  df_rows := [("GSM4", [Str "GSM4"; Str "Input control";
                                        Str "heart"; NaN])] |} in
  find_supp_url row = None
  ∧ logged (rename_row "dl" "renamed" "source_name_ch1" ∅ ("GSM4", row))
           (Demo.start Demo.scenario_world) = []
  ∧ logged (rename_supplementary_files Demo.processor (Demo.scenario_gse "A")
              table "dl" "renamed" "source_name_ch1")
           (Demo.start Demo.scenario_world)
    = [(INFO, [Lit "Renaming supplementary files based on metadata..."]);
       (INFO, [Lit "Renamed "; FNat 0; Lit " files"])].
Proof. split_and!; by vm_compute. Qed.

Lemma rename_mapping_of_copied_rows_witness :
  ∃ st' renamed_files,
    rename_supplementary_files Demo.processor (Demo.scenario_gse "A")
      Demo.scenario_table "dl" "renamed" "source_name_ch1"
      (Demo.start Demo.scenario_world)
    = (st', inr renamed_files)
    ∧ renamed_files
      = assign_all ∅ [("a.txt.gz", "liver_tissue-a.txt.gz");
                      ("b.txt.gz", "-b.txt.gz")].
Proof.
  destruct (rename_mapping_of_copied_rows (env := Demo.demo_env)
              Demo.processor (Demo.scenario_gse "A") Demo.scenario_table
              "dl" "renamed" "source_name_ch1" (Demo.start Demo.scenario_world)
              (Demo.mkStore ({["renamed"]} ∪ Demo.files Demo.scenario_world)
                            ∅ (Demo.remote Demo.scenario_world) ∅))
    as (st' & renamed_files & Hrun & Hmap & _).
  - reflexivity.
  - exists st', renamed_files. split; [exact Hrun|].
    rewrite Hmap. f_equal.
Defined.

(** C4, as stated, fails when two copied rows share their original file:
    GSM1 and GSM5 are both copied, to [liver_tissue-a.txt.gz] and to
    [GSM5-a.txt.gz], and the mapping holds the entry of GSM5 only. *)
Lemma overwritten_entry_counterexample :
  let out := rename_supplementary_files Demo.processor (Demo.scenario_gse "A")
               Demo.mixed_table "dl" "renamed" "source_name_ch1"
               (Demo.start Demo.mixed_world) in
  match out.2 with
  | inr renamed_files =>
      bool_decide ("renamed/liver_tissue-a.txt.gz" ∈ Demo.files (world out.1))
      = true
      ∧ bool_decide ("renamed/GSM5-a.txt.gz" ∈ Demo.files (world out.1)) = true
      ∧ map_to_list renamed_files = [("a.txt.gz", "GSM5-a.txt.gz")]
  | inl _ => False
  end.
Proof. vm_compute. split_and!; reflexivity. Qed.

(** ** Tables *)

Lemma select_mask_filter {A : Type} (P : A → Prop) `{∀ x, Decision (P x)}
    (f : A → bool) (xs : list A) :
  (∀ x, f x = true ↔ P x) →
  select_mask xs (map f xs) = filter P xs.
Proof.
  intros Hf. induction xs as [|x xs IH]; simpl; [done|].
  rewrite IH. destruct (f x) eqn:Hx.
  - rewrite filter_cons_True by (by apply Hf). done.
  - rewrite filter_cons_False; [done|]. rewrite <- Hf. congruence.
Qed.

Lemma series_lookup_zip_map (f : string → cell) (cols : list string) (c : string) :
  c ∈ cols → series_lookup c (zip cols (map f cols)) = Some (f c).
Proof.
  induction cols as [|c' cols IH]; intros Hin; [by apply elem_of_nil in Hin|].
  simpl. destruct (String.eqb_spec c' c) as [->|Hne]; [done|].
  apply elem_of_cons in Hin as [->|Hin]; [done|]. by apply IH.
Qed.

Lemma series_lookup_zip_is_Some (cols : list string) (cells : list cell)
    (c : string) :
  c ∈ cols → length cells = length cols →
  is_Some (series_lookup c (zip cols cells)).
Proof.
  revert cells. induction cols as [|c' cols IH]; intros cells Hin Hlen;
    [by apply elem_of_nil in Hin|].
  destruct cells as [|v cells]; [done|]. simpl.
  destruct (String.eqb_spec c' c) as [->|Hne]; [by eexists|].
  apply elem_of_cons in Hin as [->|Hin]; [done|].
  apply IH; [done|]. simpl in Hlen. lia.
Qed.



Section Tables.
Context `{env : Env}.
Implicit Types (df : DataFrame) (st : state).

(** The filter on a table that has the column: the accessor is refused on
    a [float64] column, then the pattern is compiled, then the rows are
    selected. *)
Lemma filter_samples_run self df (filter_column filter_pattern : string)
    (case_sensitive : bool) st :
  filter_column ∈ columns df →
  ∃ st',
    filter_samples_by_criteria self df filter_column filter_pattern
                               case_sensitive st
    = (st',
       match df_dtype df filter_column with
       | float64 => inl no_str_accessor
       | object =>
           match re_compile (negb case_sensitive) filter_pattern with
           | inl e => inl e
           | inr r =>
               inr (mkDataFrame (columns df) (dtypes df)
                      (filter (λ row, cell_matches r
                                 (cell_at (columns df) row.2 filter_column))
                              (df_rows df)))
           end
       end)
    ∧ world st' = world st.
Proof.
  intros Hcol.
  unfold filter_samples_by_criteria, label_in.
  rewrite bool_decide_eq_true_2 by done. cbn [negb].
  unfold bind, log, str_contains, str_accessor.
  destruct (df_dtype df filter_column).
  2:{ destruct case_sensitive; unfold bind, raise; cbn [fst snd world logs];
        eexists; split; reflexivity. }
  destruct case_sensitive; cbn [negb]; unfold bind, ret.
  all: destruct (re_compile _ filter_pattern) as [e|r];
    [unfold raise; eexists; split; reflexivity|].
  all: assert (Hmask :
    select_mask (df_rows df)
      (map (λ c, match c with Str s => re_search r s | NaN => false end)
           (df_column df filter_column))
    = filter (λ row, cell_matches r (cell_at (columns df) row.2 filter_column))
             (df_rows df)).
  1,3: unfold df_column; rewrite map_map;
    apply (select_mask_filter
             (λ row : string * list cell,
                cell_matches r (cell_at (columns df) row.2 filter_column))
             (λ row, match cell_at (columns df) row.2 filter_column with
                     | Str s => re_search r s
                     | NaN => false
                     end));
    intros row; unfold cell_matches;
    destruct (cell_at (columns df) row.2 filter_column) as [|s];
    [split; [done|]; by intros (s & ? & ?)
    |split; [by exists s|]; by intros (s' & [= <-] & ?)].
  all: unfold df_mask; rewrite Hmask.
  all: destruct (df_len _ =? 0); cbn [fst snd world logs].
  all: eexists; split; reflexivity.
Qed.


End Tables.







Section Selection.
Context `{env : Env}.




End Selection.



Section ColumnNotFound.
Context `{env : Env}.

(** C8, on the code: for a column that the table does not have, both
    operations raise [ValueError] before doing anything else; the message
    of [filter_samples_by_criteria] lists the available columns, the
    message of [get_unique_values] holds the column name only and lists
    nothing. *)
Theorem unique_values_error_omits_columns
    self (df : DataFrame) (column pattern : string) (case_sensitive : bool)
    (st : state) :
  column ∉ columns df →
  (∃ msg,
     filter_samples_by_criteria self df column pattern case_sensitive st
     = (st, inl (ValueError msg))
     ∧ lists_columns (columns df) msg)
  ∧ (∃ msg,
       get_unique_values self df column st = (st, inl (ValueError msg))
       ∧ msg = [Lit "Column '"; FStr column; Lit "' not found in metadata"]
       ∧ lists_nothing msg
       ∧ ¬ lists_columns (columns df) msg).
Proof.
  intros Hcol.
  unfold filter_samples_by_criteria, get_unique_values, label_in.
  rewrite bool_decide_eq_false_2 by done. simpl. unfold raise. split.
  - eexists. split; [reflexivity|]. unfold lists_columns. in_list.
  - eexists. split; [reflexivity|]. split; [done|].
    assert (Hnothing : lists_nothing
              [Lit "Column '"; FStr column; Lit "' not found in metadata"]).
    { intros l Hin. repeat (apply elem_of_cons in Hin as [Hin|Hin]; [done|]).
      by apply elem_of_nil in Hin. }
    split; [done|]. apply Hnothing.
Qed.

End ColumnNotFound.

Lemma unique_values_error_omits_columns_witness :
  (∃ msg,
     filter_samples_by_criteria Demo.processor Demo.scenario_table "tissue"
                                "H3K" false (Demo.start Demo.scenario_world)
     = (Demo.start Demo.scenario_world, inl (ValueError msg))
     ∧ lists_columns Demo.scenario_columns msg)
  ∧ (∃ msg,
       get_unique_values Demo.processor Demo.scenario_table "tissue"
                         (Demo.start Demo.scenario_world)
       = (Demo.start Demo.scenario_world, inl (ValueError msg))
       ∧ msg = [Lit "Column '"; FStr "tissue"; Lit "' not found in metadata"]
       ∧ lists_nothing msg
       ∧ ¬ lists_columns Demo.scenario_columns msg).
Proof.
  apply (unique_values_error_omits_columns (env := Demo.demo_env)
           Demo.processor Demo.scenario_table "tissue" "H3K" false
           (Demo.start Demo.scenario_world)).
  unfold Demo.scenario_table, Demo.scenario_columns. simpl.
  intros Hin. repeat (apply elem_of_cons in Hin as [Hin|Hin]; [done|]).
  by apply elem_of_nil in Hin.
Defined.

(** ** Value counts *)

Section ValueCounts.
Implicit Types (acc : list (string * nat)) (vs : list string).




(** *** The tally *)








End ValueCounts.

(** *** The sort *)

Section SortDesc.
Implicit Types (x y : string * nat) (l : list (string * nat)).








End SortDesc.





Section Distribution.
Context `{env : Env}.



End Distribution.


(** ** Batch processing *)

Section Batch.
Context `{env : Env}.
Implicit Types (results : gmap string batch_result) (st : state).

Variables (base_path : string) (download_supplementary : bool)
          (filter_pattern : option string) (filter_column : string).

Abbreviation step :=
  (batch_step base_path download_supplementary filter_pattern filter_column).
Abbreviation outcome_of :=
  (outcome base_path download_supplementary filter_pattern filter_column).

(** An iteration never raises: it stores the entry of the dataset, a
    failure when the pipeline raised. *)
Lemma batch_step_stores results gse_id st :
  ∃ st', step results gse_id st
         = (st', inr (<[gse_id := outcome_of st gse_id]> results)).
Proof.
  unfold batch_step, outcome, entered, bind, log, try_except. cbn [fst snd world logs].
  destruct (process_dataset _ _ _ _ gse_id _) as [st1 [e|entry]];
    cbn [fst snd world logs]; by eexists.
Qed.

Lemma batch_step_returns results gse_id st :
  ∃ st' results', step results gse_id st = (st', inr results').
Proof.
  destruct (batch_step_stores results gse_id st) as (st' & ->). by eexists _, _.
Qed.

Lemma batch_loop gse_ids results st :
  ∃ st' results',
    for_each step gse_ids results st = (st', inr results')
    ∧ dom results' = list_to_set gse_ids ∪ dom results
    ∧ (∀ id, id ∉ gse_ids → results' !! id = results !! id).
Proof.
  revert results st.
  induction gse_ids as [|gse_id gse_ids IH]; intros results st;
    cbn [for_each].
  - eexists _, _. split; [reflexivity|]. split; [set_solver|done].
  - unfold bind at 1.
    destruct (batch_step_stores results gse_id st) as (st1 & ->).
    destruct (IH (<[gse_id := outcome_of st gse_id]> results) st1)
      as (st' & results' & -> & Hdom & Hkeep).
    eexists _, _. split; [reflexivity|]. split.
    + rewrite Hdom, dom_insert_L, list_to_set_cons. set_solver.
    + intros id Hid. apply not_elem_of_cons in Hid as [Hne Hid].
      rewrite Hkeep by done. by rewrite lookup_insert_ne.
Qed.

(** *** The tally *)

Lemma successful_le_size results : successful results ≤ size results.
Proof.
  unfold successful.
  rewrite <- (length_map_to_list results), <- (length_fmap snd).
  apply length_filter.
Qed.

Lemma tally_adds_up results :
  successful results + failed results = size results.
Proof.
  unfold failed. pose proof (successful_le_size results). lia.
Qed.

Lemma failure_counted results gse_id (error : message) :
  results !! gse_id = Some (Failure error) → 1 ≤ failed results.
Proof.
  intros Hfail. unfold failed, successful.
  rewrite <- (length_map_to_list results), <- (length_fmap snd).
  set (entries := (map_to_list results).*2).
  assert (Hin : Failure error ∈ entries).
  { apply list_elem_of_fmap. exists (gse_id, Failure error).
    split; [done|]. by apply elem_of_map_to_list. }
  pose proof (length_filter_lt (λ r, status r = "success") entries
                (Failure error) Hin) as Hlt.
  assert (Hno : ¬ status (Failure error) = "success") by done.
  specialize (Hlt Hno). lia.
Qed.

(** The call, once the base directory is made: the loop, then the six
    records of the batch summary. *)
Lemma process_multiple_datasets_runs gse_ids st (w0 : World) :
  mkdir (world st) base_path = (w0, None) →
  ∃ st1 st' results,
    for_each step gse_ids ∅ (batch_start gse_ids st w0) = (st1, inr results)
    ∧ process_multiple_datasets gse_ids base_path download_supplementary
                                filter_pattern filter_column st
      = (st', inr results)
    ∧ world st' = world st1.
Proof.
  intros Hmkdir.
  destruct (batch_loop gse_ids ∅ (batch_start gse_ids st w0))
    as (st1 & results & Hloop & _).
  exists st1. pose proof Hloop as Hloop'. unfold batch_start in Hloop'.
  unfold process_multiple_datasets, bind, log, io, ret.
  cbn [fst snd world logs]. rewrite Hmkdir.
  unfold message in *. rewrite Hloop'.
  eexists _, results. split; [done|]. split; reflexivity.
Qed.

(** C5: when the pipeline of a dataset raises, whatever the exception,
    the batch stores for its ID an entry of status 'error' with the text
    of the exception and goes on: every later ID gets its entry, the
    entries of the other IDs processed before are kept, and the call
    returns the result map, on which the numbers of successes and of
    failures add up to the number of entries, this failure counted. *)
Theorem batch_records_failure_and_continues
    (ids_before ids_after : list string) (gse_id : string) st (w0 : World)
    (st1 st2 : state) (results1 : gmap string batch_result) (e : exn) :
  let gse_ids := ids_before ++ gse_id :: ids_after in
  mkdir (world st) base_path = (w0, None) →
  for_each step ids_before ∅ (batch_start gse_ids st w0)
    = (st1, inr results1) →
  process_dataset base_path download_supplementary filter_pattern
                  filter_column gse_id (entered gse_id st1)
    = (st2, inl e) →
  gse_id ∉ ids_after →
  ∃ st' results,
    process_multiple_datasets gse_ids base_path download_supplementary
                              filter_pattern filter_column st
    = (st', inr results)
    ∧ results !! gse_id = Some (Failure (exn_str e))
    ∧ status (Failure (exn_str e)) = "error"
    ∧ (∀ id, id ∈ ids_after → is_Some (results !! id))
    ∧ (∀ id, id ≠ gse_id → id ∉ ids_after →
         results !! id = results1 !! id)
    ∧ successful results + failed results = size results
    ∧ 1 ≤ failed results.
Proof.
  intros gse_ids Hmkdir Hbefore Hraise Hlast.
  destruct (process_multiple_datasets_runs gse_ids st w0 Hmkdir)
    as (st3 & st' & results & Hloop & Hrun & _).
  exists st', results. split; [exact Hrun|].
  unfold gse_ids in Hloop at 1. rewrite for_each_app, Hbefore in Hloop.
  cbn [for_each] in Hloop. unfold bind at 1 in Hloop.
  destruct (batch_step_stores results1 gse_id st1) as (st4 & Hstep).
  rewrite Hstep in Hloop.
  assert (Hout : outcome_of st1 gse_id = Failure (exn_str e)).
  { unfold outcome. by rewrite Hraise. }
  rewrite Hout in Hloop.
  destruct (batch_loop ids_after (<[gse_id := Failure (exn_str e)]> results1)
                       st4) as (st5 & results' & Hafter & Hdom & Hkeep).
  rewrite Hafter in Hloop. injection Hloop as _ <-.
  assert (Hentry : results' !! gse_id = Some (Failure (exn_str e))).
  { rewrite Hkeep by done. apply lookup_insert_eq. }
  split_and!.
  - exact Hentry.
  - reflexivity.
  - intros id Hid. apply elem_of_dom. rewrite Hdom.
    apply elem_of_union_l. by apply elem_of_list_to_set.
  - intros id Hne Hid. rewrite Hkeep by done. by rewrite lookup_insert_ne.
  - apply tally_adds_up.
  - by eapply failure_counted.
Qed.

(** C10: the result map has one entry for each distinct ID of the list;
    an ID that comes again is processed again and the entry of its last
    occurrence is the one that stays; the successes and the failures of
    the batch summary add up to the number of distinct IDs, which is at
    most the number of requested IDs. *)
Theorem batch_one_entry_per_distinct_id (gse_ids : list string) st (w0 : World) :
  mkdir (world st) base_path = (w0, None) →
  ∃ st' results,
    process_multiple_datasets gse_ids base_path download_supplementary
                              filter_pattern filter_column st
    = (st', inr results)
    ∧ dom results = list_to_set gse_ids
    ∧ size results = size (list_to_set gse_ids : gset string)
    ∧ successful results + failed results
      = size (list_to_set gse_ids : gset string)
    ∧ size (list_to_set gse_ids : gset string) ≤ length gse_ids
    ∧ (∀ ids_before gse_id ids_after st1 results1,
         gse_ids = ids_before ++ gse_id :: ids_after →
         gse_id ∉ ids_after →
         for_each step ids_before ∅ (batch_start gse_ids st w0)
           = (st1, inr results1) →
         results !! gse_id = Some (outcome_of st1 gse_id)).
Proof.
  intros Hmkdir.
  destruct (process_multiple_datasets_runs gse_ids st w0 Hmkdir)
    as (st3 & st' & results & Hloop & Hrun & _).
  exists st', results. split; [exact Hrun|].
  assert (Hdom : dom results = list_to_set gse_ids).
  { destruct (batch_loop gse_ids ∅ (batch_start gse_ids st w0))
      as (st5 & results' & Hloop' & Hdom & _).
    rewrite Hloop in Hloop'. injection Hloop' as _ <-.
    rewrite Hdom, dom_empty_L. by rewrite (right_id_L ∅ (∪)). }
  assert (Hsize : size results = size (list_to_set gse_ids : gset string)).
  { by rewrite <- Hdom, size_dom. }
  split_and!; [done|done| | |].
  - rewrite <- Hsize. apply tally_adds_up.
  - clear. induction gse_ids as [|id ids IH]; [done|].
    rewrite list_to_set_cons, size_union_alt, size_singleton. simpl.
    assert (size (list_to_set ids ∖ {[id]} : gset string)
            ≤ size (list_to_set ids : gset string))
      by (apply subseteq_size, subseteq_difference_l; done).
    lia.
  - intros ids_before gse_id ids_after st1 results1 Hsplit Hlast Hbefore.
    rewrite Hsplit in Hloop at 1. rewrite for_each_app, Hbefore in Hloop.
    cbn [for_each] in Hloop. unfold bind at 1 in Hloop.
    destruct (batch_step_stores results1 gse_id st1) as (st4 & Hstep).
    rewrite Hstep in Hloop.
    destruct (batch_loop ids_after (<[gse_id := outcome_of st1 gse_id]> results1)
                         st4) as (st5 & results' & Hafter & _ & Hkeep).
    rewrite Hafter in Hloop. injection Hloop as _ <-.
    rewrite Hkeep by done. apply lookup_insert_eq.
Qed.

End Batch.

(** *** The batch on the concrete world: "A" is in the archive, "B" is not *)

Lemma batch_records_failure_and_continues_witness :
  (∃ st' results,
     process_multiple_datasets ["A"; "B"] "batch" true (Some "H3K") "title"
                               (Demo.start Demo.scenario_world)
     = (st', inr results)
     ∧ results !! "B" = Some (Failure [FStr "B"])
     ∧ successful results + failed results = size results
     ∧ 1 ≤ failed results)
  ∧ match (process_multiple_datasets ["A"; "B"] "batch" true (Some "H3K") "title"
             (Demo.start Demo.scenario_world)).2 with
    | inr results =>
        status <$> results !! "A" = Some "success"
        ∧ status <$> results !! "B" = Some "error"
        ∧ successful results = 1
        ∧ failed results = 1
    | inl _ => False
    end.
Proof.
  split; [|vm_compute; split_and!; reflexivity].
  pose (w0 := Demo.mkStore ({["batch"]} ∪ Demo.files Demo.scenario_world) ∅
                           (Demo.remote Demo.scenario_world) ∅).
  pose (run := for_each (batch_step "batch" true (Some "H3K") "title") ["A"] ∅
                 (batch_start ["A"; "B"] (Demo.start Demo.scenario_world) w0)).
  destruct (batch_loop (env := Demo.demo_env) "batch" true (Some "H3K") "title"
              ["A"] ∅
              (batch_start ["A"; "B"] (Demo.start Demo.scenario_world) w0))
    as (st1 & results1 & Hbefore & _).
  assert (Hraise :
    (process_dataset "batch" true (Some "H3K") "title" "B"
                     (entered "B" run.1)).2
    = inl (LibError "NetworkError" "B")) by (vm_compute; reflexivity).
  assert (Hst1 : st1 = run.1) by (unfold run; by rewrite Hbefore).
  destruct (process_dataset "batch" true (Some "H3K") "title" "B"
              (entered "B" st1)) as [st2 r] eqn:Hproc.
  rewrite <- Hst1 in Hraise. rewrite Hproc in Hraise. simpl in Hraise. subst r.
  destruct (batch_records_failure_and_continues (env := Demo.demo_env)
              "batch" true (Some "H3K") "title" ["A"] [] "B"
              (Demo.start Demo.scenario_world) w0 st1 st2 results1
              (LibError "NetworkError" "B") eq_refl Hbefore Hproc
              (not_elem_of_nil _))
    as (st' & results & Hrun & Hentry & _ & _ & _ & Hsum & Hfailed).
  exists st', results. split; [exact Hrun|]. split; [exact Hentry|].
  split; [exact Hsum|exact Hfailed].
Defined.

Lemma batch_one_entry_per_distinct_id_witness :
  ∃ st' results,
    process_multiple_datasets ["A"; "B"; "A"] "batch" true None "title"
                              (Demo.start Demo.scenario_world)
    = (st', inr results)
    ∧ dom results = {[ "A"; "B" ]}
    ∧ successful results + failed results = 2
    ∧ 2 < length ["A"; "B"; "A"].
Proof.
  destruct (batch_one_entry_per_distinct_id (env := Demo.demo_env)
               "batch" true None "title" ["A"; "B"; "A"]
               (Demo.start Demo.scenario_world)
               (Demo.mkStore ({["batch"]} ∪ Demo.files Demo.scenario_world) ∅
                             (Demo.remote Demo.scenario_world) ∅) eq_refl)
    as (st' & results & Hrun & Hdom & _ & Hsum & _).
  exists st', results. split; [exact Hrun|].
  assert (Hset : (list_to_set ["A"; "B"; "A"] : gset string) = {[ "A"; "B" ]})
    by set_solver.
  split; [by rewrite Hdom|]. split; [|simpl; lia].
  rewrite Hsum, Hset. by vm_compute.
Defined.

(** * Further properties of the code *)

(** ** File names *)

Lemma append_cons (c : ascii) (a b : string) :
  String c a +:+ b = String c (a +:+ b).
Proof. reflexivity. Qed.

Lemma append_empty (a : string) : a +:+ EmptyString = a.
Proof. induction a as [|c a IH]; [done|]. by rewrite append_cons, IH. Qed.

Lemma append_snoc (a : string) (c : ascii) (s : string) :
  (a +:+ String c EmptyString) +:+ s = a +:+ String c s.
Proof. induction a as [|c' a IH]; [done|]. by rewrite !append_cons, IH. Qed.

Lemma chars_app (a b : string) : chars (a +:+ b) = chars a ++ chars b.
Proof.
  unfold chars. induction a as [|c a IH]; [done|].
  rewrite append_cons. simpl. by rewrite IH.
Qed.

Lemma last_segment_from_no_sep (sep : ascii) (acc s : string) :
  sep ∉ chars acc → sep ∉ chars (PyStr.last_segment_from sep acc s).
Proof.
  revert acc. induction s as [|c s IH]; intros acc Hacc; simpl; [done|].
  destruct (Ascii.eqb_spec c sep) as [->|Hne].
  - apply IH. apply not_elem_of_nil.
  - apply IH. rewrite chars_app. simpl.
    rewrite elem_of_app, list_elem_of_singleton. intros [?|?]; [done|congruence].
Qed.

Lemma last_segment_from_whole (sep : ascii) (acc s : string) :
  sep ∉ chars s → PyStr.last_segment_from sep acc s = acc +:+ s.
Proof.
  revert acc. induction s as [|c s IH]; intros acc Hs; simpl.
  - by rewrite append_empty.
  - unfold chars in Hs. simpl in Hs. apply not_elem_of_cons in Hs as [Hne Hs].
    destruct (Ascii.eqb_spec c sep) as [->|_]; [done|].
    rewrite IH by done. apply append_snoc.
Qed.

Lemma last_segment_from_suffix (sep : ascii) (acc prefix name : string) :
  sep ∉ chars name →
  PyStr.last_segment_from sep acc (prefix +:+ String sep name) = name.
Proof.
  intros Hname. revert acc.
  induction prefix as [|c prefix IH]; intros acc.
  - simpl. rewrite Ascii.eqb_refl. by rewrite last_segment_from_whole.
  - rewrite append_cons. simpl. destruct (Ascii.eqb c sep); apply IH.
Qed.

Lemma replace_removes (old new : ascii) (s : string) :
  old ≠ new → old ∉ chars (PyStr.replace old new s).
Proof.
  intros Hne. unfold chars. rewrite replace_chars. intros Hin.
  apply list_elem_of_fmap in Hin as (c & Hc & _). revert Hc.
  destruct (Ascii.eqb_spec c old) as [->|Hc]; congruence.
Qed.

(** X1: the file name taken from a URL, [url.split('/')[-1]], never holds
    a slash; it is the text after the last slash, and the whole URL when
    the URL has no slash. *)
Theorem last_segment_is_leaf :
  (∀ url, "/"%char ∉ chars (PyStr.last_segment "/" url))
  ∧ (∀ prefix name, "/"%char ∉ chars name →
       PyStr.last_segment "/" (prefix +:+ "/" +:+ name) = name)
  ∧ (∀ url, "/"%char ∉ chars url → PyStr.last_segment "/" url = url).
Proof.
  split_and!.
  - intros url. apply last_segment_from_no_sep, not_elem_of_nil.
  - intros prefix name Hname. by apply (last_segment_from_suffix "/" EmptyString).
  - intros url Hurl. unfold PyStr.last_segment.
    by rewrite last_segment_from_whole.
Qed.

(** X2: an identifier taken from the identifier column holds no space and
    no slash, and it is as long as the value it comes from. *)
Theorem identifier_has_no_separator
    (identifier_column : string) (row : Series) (geo_accession : cell)
    (value : string) :
  series_lookup identifier_column row = Some (Str value) →
  let identifier :=
    str_of_cell (row_identifier identifier_column row geo_accession) in
  (" "%char ∉ chars identifier)
  ∧ ("/"%char ∉ chars identifier)
  ∧ String.length identifier = String.length value.
Proof.
  intros Hrow. unfold row_identifier. rewrite Hrow. simpl. unfold chars.
  rewrite !replace_chars, map_map. split_and!.
  - intros Hin. apply list_elem_of_fmap in Hin as (c & Hc & _). revert Hc.
    destruct (Ascii.eqb_spec c " ") as [->|Hs]; simpl; [done|].
    destruct (Ascii.eqb_spec c "/") as [->|Hp]; [done|congruence].
  - intros Hin. apply list_elem_of_fmap in Hin as (c & Hc & _). revert Hc.
    destruct (Ascii.eqb_spec c " ") as [->|Hs]; simpl; [done|].
    destruct (Ascii.eqb_spec c "/") as [->|Hp]; [done|congruence].
  - clear. induction value as [|c value IH]; simpl; [done|]. by rewrite IH.
Qed.

Lemma identifier_has_no_separator_witness :
  let identifier :=
    str_of_cell (row_identifier "source_name_ch1"
                   [("source_name_ch1", Str "liver tissue/left lobe")]
                   (Str "GSM1")) in
  (" "%char ∉ chars identifier)
  ∧ ("/"%char ∉ chars identifier)
  ∧ String.length identifier = String.length "liver tissue/left lobe".
Proof.
  apply (identifier_has_no_separator "source_name_ch1"
           [("source_name_ch1", Str "liver tissue/left lobe")] (Str "GSM1")
           "liver tissue/left lobe").
  reflexivity.
Defined.

(** X3: the legacy script replaces the spaces of the source name only,
    [rename_supplementary_files] the spaces and the slashes of the
    identifier: on a value of the identifier column the two give the same
    text exactly when the value has no slash. *)
Theorem legacy_name_agrees (identifier_column : string) (row : Series)
    (geo_accession : cell) (value : string) :
  series_lookup identifier_column row = Some (Str value) →
  Legacy.source_name value
  = str_of_cell (row_identifier identifier_column row geo_accession)
  ↔ "/"%char ∉ chars value.
Proof.
  intros Hrow. unfold Legacy.source_name, row_identifier.
  rewrite Hrow. simpl.
  assert (Hkept : "/"%char ∈ chars value
                  ↔ "/"%char ∈ chars (PyStr.replace " " "_" value)).
  { unfold chars. rewrite replace_chars. rewrite list_elem_of_fmap. split.
    - intros Hin. by exists "/"%char.
    - intros (c & Hc & Hin). revert Hc.
      destruct (Ascii.eqb c " "); [done|]. by intros <-. }
  rewrite Hkept. generalize (PyStr.replace " " "_" value). clear.
  intros s. split.
  - intros Heq. rewrite Heq. by apply replace_removes.
  - induction s as [|c s IH]; simpl; intros Hs; [done|].
    unfold chars in Hs. simpl in Hs. apply not_elem_of_cons in Hs as [Hne Hs].
    destruct (Ascii.eqb_spec c "/") as [->|_]; [done|]. by rewrite <- IH.
Qed.

Lemma legacy_name_agrees_witness :
  Legacy.source_name "liver tissue"
  = str_of_cell (row_identifier "source_name_ch1"
                   [("source_name_ch1", Str "liver tissue")] (Str "GSM1")).
Proof.
  apply (legacy_name_agrees "source_name_ch1"
           [("source_name_ch1", Str "liver tissue")] (Str "GSM1")
           "liver tissue").
  - reflexivity.
  - unfold chars. simpl. intros Hin.
    repeat (apply elem_of_cons in Hin as [Hin|Hin]; [discriminate|]).
    by apply elem_of_nil in Hin.
Defined.

(** ** Downloads *)

Section Downloads.
Context `{env : Env}.
Implicit Types (st : state) (gse : GSE).

Lemma download_one_file_step (out_dir : string) (downloaded_files : list string)
    (supp_file : string) st :
  ∃ st' got,
    download_one_file out_dir downloaded_files supp_file st
    = (st', inr (downloaded_files ++ got))
    ∧ got `sublist_of` [PyStr.last_segment "/" supp_file].
Proof.
  unfold download_one_file, try_except, bind, log, io, ret.
  cbn [fst snd world logs].
  destruct (download_from_url (world st) supp_file _) as [w [e|]];
    cbn [fst snd world logs].
  - eexists _, []. rewrite app_nil_r. split; [reflexivity|]. apply sublist_nil_l.
  - eexists _, [PyStr.last_segment "/" supp_file]. split; reflexivity.
Qed.

Lemma download_loop (out_dir : string) (files downloaded_files : list string) st :
  ∃ st' got,
    for_each (download_one_file out_dir) files downloaded_files st
    = (st', inr (downloaded_files ++ got))
    ∧ got `sublist_of` map (PyStr.last_segment "/") files.
Proof.
  revert downloaded_files st.
  induction files as [|url files IH]; intros downloaded_files st;
    cbn [for_each map].
  - exists st, []. by rewrite app_nil_r.
  - unfold bind at 1.
    destruct (download_one_file_step out_dir downloaded_files url st)
      as (st1 & got1 & -> & Hgot1).
    destruct (IH (downloaded_files ++ got1) st1) as (st' & got & -> & Hgot).
    exists st', (got1 ++ got). rewrite app_assoc. split; [reflexivity|].
    by apply (sublist_app got1 [_] got _).
Qed.

(** X4: [download_supplementary_files] raises only when the dataset
    object has no attribute [supplementary_files], the attribute being
    read outside of every [try]: the [AttributeError] leaves the state as
    it was.  Otherwise it returns, whatever the downloads do: file names
    only, each the last segment of a listed URL, in the order of the list
    and at most once per listed URL; with an empty list of supplementary
    files it returns the empty list and leaves the world as it is. *)
Theorem download_supplementary_files_returns
    (self : GEODataProcessor) gse (out_dir : option string) st :
  match supplementary_files gse with
  | None =>
      download_supplementary_files self gse out_dir st
      = (st, inl no_supplementary_files)
  | Some files =>
      ∃ st' downloaded_files,
        download_supplementary_files self gse out_dir st
        = (st', inr downloaded_files)
        ∧ downloaded_files `sublist_of` map (PyStr.last_segment "/") files
        ∧ length downloaded_files ≤ length files
        ∧ (files = [] → downloaded_files = [] ∧ world st' = world st)
  end.
Proof.
  unfold download_supplementary_files, get_supplementary_files.
  destruct (supplementary_files gse) as [[|url files]|]; [| |done].
  - unfold bind, log, ret. cbn [fst snd world logs].
    eexists _, []. split_and!; [reflexivity|done|done|done].
  - unfold bind at 1. unfold ret at 1.
    unfold bind at 1. unfold log at 1. cbn [fst snd].
    unfold bind at 1.
    match goal with
    | |- context [for_each _ ?l [] ?s] =>
        destruct (download_loop (default (output_dir self) out_dir) l [] s)
          as (st1 & got & Hloop & Hgot)
    end.
    rewrite Hloop. unfold bind, log, ret. cbn [fst snd world logs app].
    eexists _, got. split_and!; [reflexivity|done| |done].
    apply sublist_length in Hgot. by rewrite length_map in Hgot.
Qed.

(** X5: when [GEOparse.get_GEO] raises, [download_geo_dataset] raises the
    same exception, after an ERROR record that holds its text. *)
Theorem download_geo_dataset_propagates
    (self : GEODataProcessor) (gse_id : string) (destdir : option string) st
    (w' : World) (e : exn) :
  get_GEO (world st) gse_id
          (default (path_join (output_dir self) gse_id) destdir) = (w', inl e) →
  ∃ st',
    download_geo_dataset self gse_id destdir st = (st', inl e)
    ∧ world st' = w'
    ∧ logged (download_geo_dataset self gse_id destdir) st
      = [(INFO, [Lit "Downloading GEO dataset: "; FStr gse_id]);
         (ERROR, [Lit "Error downloading "; FStr gse_id; Lit ": "] ++ exn_str e)].
Proof.
  intros Hget. unfold logged, download_geo_dataset, try_except, bind, log,
    io_val, raise. cbn [fst snd world logs]. rewrite Hget.
  cbn [fst snd world logs].
  eexists. split_and!; [reflexivity|reflexivity|].
  by rewrite <- !app_assoc, drop_app_length.
Qed.

(** X6: a successful fetch does not make [download_geo_dataset] return.
    The records that follow it take the first element of the 'title' list
    of the metadata and read the attribute [supplementary_files] of the
    dataset: with an empty 'title' list the call raises [IndexError], and
    otherwise, with a dataset object that lacks the attribute, it raises
    [AttributeError], in both cases after the ERROR record of the handler
    and although the dataset was fetched.  In every other case the fetched
    dataset is returned. *)
Theorem download_geo_dataset_title
    (self : GEODataProcessor) (gse_id : string) (destdir : option string) st
    (w' : World) gse :
  get_GEO (world st) gse_id
          (default (path_join (output_dir self) gse_id) destdir)
    = (w', inr gse) →
  let outcome :=
    if decide (gse_metadata gse !! "title" = Some []) then inl IndexError
    else if decide (supplementary_files gse = None)
         then inl no_supplementary_files
         else inr gse in
  ∃ st',
    download_geo_dataset self gse_id destdir st = (st', outcome)
    ∧ world st' = w'
    ∧ ∀ e, outcome = inl e →
        last (logs st')
        = Some (ERROR, [Lit "Error downloading "; FStr gse_id; Lit ": "]
                       ++ exn_str e).
Proof.
  intros Hget outcome. unfold outcome.
  unfold download_geo_dataset, try_except, bind, log, io_val,
    raise, metadata_first, get_supplementary_files.
  cbn [fst snd world logs]. rewrite Hget.
  cbn [fst snd world logs].
  destruct (gse_metadata gse !! "title") as [[|title titles]|] eqn:Htitle;
    cbn [default fst snd world logs]; unfold ret, raise;
    cbn [fst snd world logs].
  - rewrite decide_True by done.
    eexists; split_and!; [reflexivity|done|].
    intros e [= <-]. cbn [logs]. by rewrite last_snoc.
  - rewrite decide_False by done.
    destruct (supplementary_files gse) as [files|]; cbn [fst snd world logs].
    + rewrite decide_False by done. eexists; split_and!; [reflexivity|done|done].
    + rewrite decide_True by done.
      eexists; split_and!; [reflexivity|done|].
      intros e [= <-]. cbn [logs]. by rewrite last_snoc.
  - rewrite decide_False by done.
    destruct (supplementary_files gse) as [files|]; cbn [fst snd world logs].
    + rewrite decide_False by done. eexists; split_and!; [reflexivity|done|done].
    + rewrite decide_True by done.
      eexists; split_and!; [reflexivity|done|].
      intros e [= <-]. cbn [logs]. by rewrite last_snoc.
Qed.

End Downloads.

Lemma download_geo_dataset_propagates_witness :
  ∃ st',
    download_geo_dataset Demo.processor "B" None (Demo.start Demo.scenario_world)
    = (st', inl (LibError "NetworkError" "B"))
    ∧ world st' = Demo.scenario_world.
Proof.
  destruct (download_geo_dataset_propagates (env := Demo.demo_env)
              Demo.processor "B" None (Demo.start Demo.scenario_world)
              Demo.scenario_world (LibError "NetworkError" "B") eq_refl)
    as (st' & Hrun & Hworld & _).
  by exists st'.
Defined.

Lemma download_geo_dataset_title_witness :
  (∃ st',
     download_geo_dataset Demo.processor "U" None (Demo.start Demo.untitled_world)
     = (st', inl IndexError))
  ∧ (∃ st',
       download_geo_dataset Demo.processor "G" None (Demo.start Demo.bare_world)
       = (st', inl no_supplementary_files)).
Proof.
  split.
  - destruct (download_geo_dataset_title (env := Demo.demo_env)
                Demo.processor "U" None (Demo.start Demo.untitled_world)
                Demo.untitled_world Demo.untitled_gse eq_refl)
      as (st' & Hrun & _).
    exists st'. rewrite Hrun. reflexivity.
  - destruct (download_geo_dataset_title (env := Demo.demo_env)
                Demo.processor "G" None (Demo.start Demo.bare_world)
                Demo.bare_world Demo.bare_gse eq_refl)
      as (st' & Hrun & _).
    exists st'. rewrite Hrun. reflexivity.
Defined.

(** ** Filtering *)

Section Filtering.
Context `{env : Env}.
Implicit Types (df : DataFrame) (st : state).

(** X7: filtering is idempotent: when the filter returns a table, the
    filter applied to that table, with the same column, pattern and case
    rule, returns it again. *)
Theorem filter_twice self df (filter_column filter_pattern : string)
    (case_sensitive : bool) st st1 (filtered_df : DataFrame) :
  filter_samples_by_criteria self df filter_column filter_pattern
                             case_sensitive st
  = (st1, inr filtered_df) →
  ∀ st2, ∃ st3,
    filter_samples_by_criteria self filtered_df filter_column filter_pattern
                               case_sensitive st2
    = (st3, inr filtered_df).
Proof.
  intros Hfirst st2.
  destruct (decide (filter_column ∈ columns df)) as [Hcol|Hcol].
  2:{ revert Hfirst. unfold filter_samples_by_criteria, label_in.
      by rewrite bool_decide_eq_false_2 by done. }
  destruct (filter_samples_run self df filter_column filter_pattern
              case_sensitive st Hcol) as (st' & Hrun & _).
  rewrite Hfirst in Hrun.
  destruct (df_dtype df filter_column) eqn:Hdt; [|done].
  destruct (re_compile (negb case_sensitive) filter_pattern) as [e|r] eqn:Hre;
    [done|].
  injection Hrun as _ ->.
  match goal with
  | |- context [filter_samples_by_criteria _ ?d _ _ _ _] =>
      destruct (filter_samples_run self d filter_column filter_pattern
                  case_sensitive st2 Hcol) as (st3 & Hsecond & _)
  end.
  exists st3. rewrite Hsecond.
  unfold df_dtype in Hdt |- *. cbn [columns dtypes df_rows].
  rewrite Hdt, Hre. do 3 f_equal.
  rewrite list_filter_filter. apply list_filter_iff. tauto.
Qed.


(** X9: in the batch, the filter block never raises.  Without pattern,
    with an empty pattern or with a filter column that the table does not
    have, the block does nothing and the filtered table is [None].
    Otherwise an error of the filter leaves the filtered table [None] and
    adds one ERROR record with the text of the error to the log of the
    filter; when the filter returns, its table is the filtered table, also
    when the write of a non-empty filtered table fails, which adds the one
    ERROR record of that error. *)
Theorem batch_filter_never_raises
    (processor : GEODataProcessor) (dataset_dir gse_id : string)
    (metadata : DataFrame) (filter_pattern : option string)
    (filter_column : string) st :
  ∃ st' filtered_metadata,
    batch_filter processor dataset_dir gse_id metadata filter_pattern
                 filter_column st
    = (st', inr filtered_metadata)
    ∧ (filter_pattern = None ∨ filter_pattern = Some EmptyString
       ∨ filter_column ∉ columns metadata →
       filtered_metadata = None ∧ st' = st)
    ∧ (∀ pat, filter_pattern = Some pat → pat ≠ EmptyString →
         filter_column ∈ columns metadata →
         match filter_samples_by_criteria processor metadata filter_column
                                          pat false st with
         | (st1, inl e) =>
             filtered_metadata = None
             ∧ st' = mkState (world st1)
                       (logs st1 ++ [(ERROR, [Lit "Error filtering samples: "]
                                             ++ exn_str e)])
         | (st1, inr filtered) =>
             filtered_metadata = Some filtered
             ∧ match
                 (if 0 <? df_len filtered
                  then to_csv (world st1) filtered
                         (path_join dataset_dir
                                    (gse_id +:+ "_filtered_metadata.tsv"))
                  else (world st1, None))
               with
               | (w, None) => st' = mkState w (logs st1)
               | (w, Some e) =>
                   st' = mkState w
                           (logs st1
                            ++ [(ERROR, [Lit "Error filtering samples: "]
                                        ++ exn_str e)])
               end
         end).
Proof.
  unfold batch_filter.
  destruct filter_pattern as [pat|].
  2:{ eexists _, _. split_and!; [reflexivity|done|done]. }
  destruct pat as [|c pat]; cbn [PyStr.truthy andb].
  { eexists _, _. split_and!; [reflexivity|done|]. by intros ? [= <-]. }
  unfold label_in.
  destruct (decide (filter_column ∈ columns metadata)) as [Hcol|Hcol].
  2:{ rewrite bool_decide_eq_false_2 by done.
      eexists _, _. split_and!; [reflexivity|done|done]. }
  rewrite bool_decide_eq_true_2 by done.
  assert (Hactive : ¬ (Some (String c pat) = None
                       ∨ Some (String c pat) = Some EmptyString
                       ∨ filter_column ∉ columns metadata)).
  { intros [?|[?|?]]; done. }
  unfold try_except, bind at 1.
  destruct (filter_samples_by_criteria processor metadata filter_column
              (String c pat) false st) as [st1 [e|fm]] eqn:Hfilter.
  - unfold bind, log, ret. cbn [fst snd world logs].
    eexists _, _. split_and!; [reflexivity| |].
    + intros H. by destruct Hactive.
    + intros ? [= <-] _ _. by rewrite Hfilter.
  - destruct (0 <? df_len fm) eqn:Hlen.
    + unfold bind, io, log, ret. cbn [fst snd world logs].
      destruct (to_csv (world st1) fm _) as [w [e|]] eqn:Hcsv;
        cbn [fst snd world logs]; eexists _, _;
        (split_and!; [reflexivity| |]);
        try (intros H; by destruct Hactive);
        intros ? [= <-] _ _; rewrite Hfilter, Hlen, Hcsv; done.
    + unfold ret. eexists _, _. split_and!; [reflexivity| |].
      * intros H. by destruct Hactive.
      * intros ? [= <-] _ _. rewrite Hfilter, Hlen. by destruct st1.
Qed.

(** X10: the single-dataset workflow does not test the filter column: for
    a column that the table does not have, its filter block catches the
    [ValueError] of the filter, logs it with the list of the available
    columns, and goes on without filtered table. *)
Theorem analyze_filter_missing_column
    (processor : GEODataProcessor) (out_dir gse_id : string)
    (metadata : DataFrame) (pattern filter_column : string) st :
  PyStr.truthy pattern = true →
  filter_column ∉ columns metadata →
  ∃ st',
    analyze_filter processor out_dir gse_id metadata (Some pattern)
                   filter_column st
    = (st', inr None)
    ∧ world st' = world st
    ∧ logged (analyze_filter processor out_dir gse_id metadata (Some pattern)
                             filter_column) st
      = [(ERROR, [Lit "Error filtering samples: "; Lit "Column '";
                  FStr filter_column;
                  Lit "' not found in metadata. Available columns: ";
                  FList (columns metadata)])].
Proof.
  intros Hpat Hcol.
  unfold logged, analyze_filter. rewrite Hpat.
  unfold try_except, bind at 1. unfold filter_samples_by_criteria, label_in.
  rewrite bool_decide_eq_false_2 by done. cbn [negb].
  unfold raise, bind, log, ret. cbn [fst snd world logs app exn_str].
  eexists. split_and!; [reflexivity|reflexivity|].
  by rewrite drop_app_length.
Qed.

End Filtering.

Lemma scenario_has_title : "title" ∈ columns Demo.scenario_table.
Proof. unfold Demo.scenario_table, Demo.scenario_columns. simpl. in_list. Qed.

Lemma filter_twice_witness :
  let filtered_df :=
    mkDataFrame Demo.scenario_columns [object; object; object; object]
      [("GSM1", [Str "GSM1"; Str "H3K4me3 ChIP"; Str "liver tissue";
                 Str "http://x/a.txt.gz"])] in
  ∃ st3,
    filter_samples_by_criteria Demo.processor filtered_df "title" "H3K"
                               false (Demo.start Demo.scenario_world)
    = (st3, inr filtered_df).
Proof.
  intros filtered_df.
  destruct (filter_samples_run (env := Demo.demo_env) Demo.processor
              Demo.scenario_table "title" "H3K" false
              (Demo.start Demo.scenario_world) scenario_has_title)
    as (st1 & Hrun & _).
  apply (filter_twice (env := Demo.demo_env) Demo.processor Demo.scenario_table
           "title" "H3K" false (Demo.start Demo.scenario_world) st1).
  rewrite Hrun. f_equal.
Defined.


Lemma analyze_filter_missing_column_witness :
  ∃ st',
    analyze_filter Demo.processor "out" "A" Demo.scenario_table (Some "H3K")
                   "tissue" (Demo.start Demo.scenario_world)
    = (st', inr None)
    ∧ world st' = Demo.scenario_world.
Proof.
  destruct (analyze_filter_missing_column (env := Demo.demo_env)
              Demo.processor "out" "A" Demo.scenario_table "H3K" "tissue"
              (Demo.start Demo.scenario_world))
    as (st' & Hrun & Hworld & _).
  - reflexivity.
  - unfold Demo.scenario_table, Demo.scenario_columns. simpl. intros Hin.
    repeat (apply elem_of_cons in Hin as [Hin|Hin]; [done|]).
    by apply elem_of_nil in Hin.
  - by exists st'.
Defined.

(** ** Annotation *)

Section Annotation.
Context `{env : Env}.


End Annotation.

(** ** The tally of a batch *)

Section Tally.
Context `{env : Env}.

(** X12: the number of failures of the batch summary,
    [len(results) - successful], is the number of entries of status
    'error'. *)
Theorem failed_counts_errors (results : gmap string batch_result) :
  failed results
  = length (filter (λ r, status r = "error") (map_to_list results).*2).
Proof.
  unfold failed, successful.
  rewrite <- (length_map_to_list results), <- (length_fmap snd).
  generalize ((map_to_list results).*2). intros entries.
  induction entries as [|r entries IH]; [done|].
  pose proof (length_filter (λ r, status r = "success") entries) as Hle.
  rewrite !filter_cons. destruct r as [? ? ? ? ? ?|error]; cbn [status].
  - rewrite decide_True, decide_False by done. cbn [length]. lia.
  - rewrite decide_False, decide_True by done. cbn [length]. lia.
Qed.

End Tally.

(** ** The dataset summary *)

Section SummaryFacts.
Context `{env : Env}.
Implicit Types (st : state) (gse : GSE).

Lemma bind_returns {A B : Type} (m : M A) (f : A → M B) st st' (y : B) :
  bind m f st = (st', inr y) →
  ∃ st1 x, m st = (st1, inr x) ∧ f x st1 = (st', inr y).
Proof.
  unfold bind. destruct (m st) as [st1 [e|x]]; [done|]. intros H.
  by exists st1, x.
Qed.





End SummaryFacts.


(** ** A fetch that fails *)

Section FetchFailure.
Context `{env : Env}.
Implicit Types (st : state).

(** The processor made and the fetch failed: the download raises. *)
Lemma init_then_fetch_fails (dir gse_id : string) st (w0 w1 : World) (e : exn) :
  mkdir (world st) dir = (w0, None) →
  get_GEO w0 gse_id (path_join dir gse_id) = (w1, inl e) →
  ∃ st',
    bind (init_processor dir)
         (λ processor, download_geo_dataset processor gse_id None) st
    = (st', inl e)
    ∧ world st' = w1.
Proof.
  intros Hmkdir Hget.
  unfold init_processor, download_geo_dataset, try_except, bind, log, io,
    io_val, raise, ret.
  cbn [fst snd world logs output_dir default]. rewrite Hmkdir.
  cbn [fst snd world logs output_dir default]. rewrite Hget.
  cbn [fst snd world logs]. eexists. split; reflexivity.
Qed.

Lemma bind_then_raises {A B C : Type} (m : M A) (f : A → M B)
    (g : A → B → M C) st st' (e : exn) :
  bind m f st = (st', inl e) →
  bind m (λ x, bind (f x) (g x)) st = (st', inl e).
Proof.
  unfold bind. destruct (m st) as [st1 [e1|x]]; [by intros [= -> ->]|].
  destruct (f x st1) as [st2 [e2|y]]; [by intros [= -> ->]|done].
Qed.

(** X14: the single-dataset workflow does not catch a failed fetch: when
    [GEOparse.get_GEO] raises, [analyze_geo_dataset] raises the same
    exception, nothing being written but the output directory. *)
Theorem analyze_fetch_failure
    (gse_id out_dir : string) (download_supplementary : bool)
    (filter_pattern : option string) (filter_column : string)
    (selected_columns : option (list string)) st (w0 w1 : World) (e : exn) :
  mkdir (world st) out_dir = (w0, None) →
  get_GEO w0 gse_id (path_join out_dir gse_id) = (w1, inl e) →
  ∃ st',
    analyze_geo_dataset gse_id out_dir download_supplementary filter_pattern
                        filter_column selected_columns st
    = (st', inl e)
    ∧ world st' = w1.
Proof.
  intros Hmkdir Hget. unfold analyze_geo_dataset.
  unfold bind at 1. unfold log at 1. cbn [fst snd].
  match goal with
  | |- context [bind (init_processor _) _ ?s] =>
      destruct (init_then_fetch_fails out_dir gse_id s w0 w1 e Hmkdir Hget)
        as (st' & Hfail & Hworld)
  end.
  exists st'. split; [|done].
  by apply (bind_then_raises (init_processor out_dir)).
Qed.

(** X15: in the batch, a dataset whose fetch raises gets the entry
    [{'status': 'error', 'error': str(e)}]; the iteration does not raise
    and leaves the world as the fetch left it. *)
Theorem batch_step_fetch_failure
    (base_path : string) (download_supplementary : bool)
    (filter_pattern : option string) (filter_column : string)
    (results : gmap string batch_result) (gse_id : string) st
    (w0 w1 : World) (e : exn) :
  mkdir (world st) (path_join base_path gse_id) = (w0, None) →
  get_GEO w0 gse_id (path_join (path_join base_path gse_id) gse_id)
    = (w1, inl e) →
  ∃ st',
    batch_step base_path download_supplementary filter_pattern filter_column
               results gse_id st
    = (st', inr (<[gse_id := Failure (exn_str e)]> results))
    ∧ world st' = w1.
Proof.
  intros Hmkdir Hget.
  destruct (init_then_fetch_fails (path_join base_path gse_id) gse_id
              (entered gse_id st) w0 w1 e Hmkdir Hget)
    as (st1 & Hfail & Hworld).
  assert (Hproc : process_dataset base_path download_supplementary
                    filter_pattern filter_column gse_id (entered gse_id st)
                  = (st1, inl e)).
  { unfold process_dataset.
    by apply (bind_then_raises (init_processor (path_join base_path gse_id))). }
  unfold batch_step, bind, log, try_except, ret. cbn [fst snd world logs].
  unfold entered in Hproc. unfold message in *. rewrite Hproc.
  cbn [fst snd world logs]. eexists. split; [reflexivity|done].
Qed.

End FetchFailure.

Lemma analyze_fetch_failure_witness :
  ∃ st',
    analyze_geo_dataset "B" "out" true (Some "H3K") "title" None
                        (Demo.start Demo.scenario_world)
    = (st', inl (LibError "NetworkError" "B")).
Proof.
  destruct (analyze_fetch_failure (env := Demo.demo_env) "B" "out" true
              (Some "H3K") "title" None (Demo.start Demo.scenario_world)
              (Demo.mkStore ({["out"]} ∪ Demo.files Demo.scenario_world) ∅
                            (Demo.remote Demo.scenario_world) ∅)
              (Demo.mkStore ({["out"]} ∪ Demo.files Demo.scenario_world) ∅
                            (Demo.remote Demo.scenario_world) ∅)
              (LibError "NetworkError" "B") eq_refl eq_refl)
    as (st' & Hrun & _).
  by exists st'.
Defined.

Lemma batch_step_fetch_failure_witness :
  ∃ st',
    batch_step "batch" true None "title" ∅ "B" (Demo.start Demo.scenario_world)
    = (st', inr (<["B" := Failure [FStr "B"]]> ∅)).
Proof.
  destruct (batch_step_fetch_failure (env := Demo.demo_env) "batch" true None
              "title" ∅ "B" (Demo.start Demo.scenario_world)
              (Demo.mkStore ({["batch/B"]} ∪ Demo.files Demo.scenario_world) ∅
                            (Demo.remote Demo.scenario_world) ∅)
              (Demo.mkStore ({["batch/B"]} ∪ Demo.files Demo.scenario_world) ∅
                            (Demo.remote Demo.scenario_world) ∅)
              (LibError "NetworkError" "B") eq_refl eq_refl)
    as (st' & Hrun & _).
  by exists st'.
Defined.

(** ** The names of the rename mapping *)

Section RenamedNames.
Context `{env : Env}.

Lemma copied_names (source_dir out_dir identifier_column : string) (w : World)
    (rows : list (string * Series)) (o n : string) :
  (o, n) ∈ copied source_dir out_dir identifier_column w rows →
  ("/"%char ∉ chars o)
  ∧ ∃ index row geo_accession url,
      (index, row) ∈ rows
      ∧ series_lookup "geo_accession" row = Some geo_accession
      ∧ find_supp_url row = Some url
      ∧ o = PyStr.last_segment "/" url
      ∧ n = str_of_cell (row_identifier identifier_column row geo_accession)
            +:+ "-" +:+ o.
Proof.
  revert w. induction rows as [|[index row] rows IH]; intros w; cbn [copied snd].
  - intros Hin. by apply elem_of_nil in Hin.
  - destruct (row_copy source_dir out_dir identifier_column w row) as [p w1]
      eqn:Hcopy.
    rewrite elem_of_app. intros [Hin|Hin].
    + unfold row_copy, copy_attempt in Hcopy.
      destruct (series_lookup "geo_accession" row) as [geo_accession|] eqn:Hga;
        [|injection Hcopy as <- _; by apply elem_of_nil in Hin].
      destruct (find_supp_url row) as [url|] eqn:Hurl;
        [|injection Hcopy as <- _; by apply elem_of_nil in Hin].
      cbv zeta in Hcopy.
      destruct (PyStr.truthy url && path_exists w _);
        [|injection Hcopy as <- _; by apply elem_of_nil in Hin].
      destruct (copy2 w _ _) as [w2 [e|]];
        injection Hcopy as <- _; [by apply elem_of_nil in Hin|].
      apply list_elem_of_singleton in Hin. injection Hin as -> ->.
      split.
      * apply last_segment_from_no_sep, not_elem_of_nil.
      * exists index, row, geo_accession, url.
        split_and!; [apply list_elem_of_here|done|done|done|done].
    + destruct (IH w1 Hin) as (Hslash & i & r & ga & url & Hrow & Hrest).
      split; [done|]. exists i, r, ga, url. split; [|done].
      by apply list_elem_of_further.
Qed.

(** X16: every entry of the mapping that [rename_supplementary_files]
    returns comes from a row of the table: its key is the last segment of
    the supplementary-file URL of the row, without slash, and its value is
    the identifier of the row, a hyphen and the key. *)
Theorem renamed_names
    (self : GEODataProcessor) (gse : GSE) (metadata_df : DataFrame)
    (source_dir out_dir identifier_column : string) (st st' : state)
    (renamed_files : gmap string string) :
  rename_supplementary_files self gse metadata_df source_dir out_dir
                             identifier_column st
    = (st', inr renamed_files) →
  ∀ o n, renamed_files !! o = Some n →
    ("/"%char ∉ chars o)
    ∧ ∃ index row geo_accession url,
        (index, row) ∈ iterrows metadata_df
        ∧ series_lookup "geo_accession" row = Some geo_accession
        ∧ find_supp_url row = Some url
        ∧ o = PyStr.last_segment "/" url
        ∧ n = str_of_cell (row_identifier identifier_column row geo_accession)
              +:+ "-" +:+ o.
Proof.
  unfold rename_supplementary_files, bind, log, io, ret.
  cbn [fst snd world logs].
  destruct (mkdir (world st) out_dir) as [w1 [e|]]; cbn [fst snd world logs];
    [done|].
  match goal with
  | |- context [for_each ?body ?xs ?acc ?s] =>
      destruct (rename_loop source_dir out_dir identifier_column xs acc s)
        as (st1 & ->)
  end.
  cbn [fst snd world logs]. intros [= _ <-] o n Hlook.
  apply assign_all_lookup in Hlook as [Hin|Hempty];
    [|by rewrite lookup_empty in Hempty].
  by eapply copied_names.
Qed.

Lemma rename_returns
    (self : GEODataProcessor) (gse : GSE) (metadata_df : DataFrame)
    (source_dir out_dir identifier_column : string) (st : state) (w1 : World) :
  mkdir (world st) out_dir = (w1, None) →
  ∃ st' renamed_files,
    rename_supplementary_files self gse metadata_df source_dir out_dir
                               identifier_column st
    = (st', inr renamed_files).
Proof.
  intros Hmkdir. unfold rename_supplementary_files, bind, log, io, ret.
  cbn [fst snd world logs]. rewrite Hmkdir. cbn [fst snd world logs].
  match goal with
  | |- context [for_each ?body ?xs ?acc ?s] =>
      destruct (rename_loop source_dir out_dir identifier_column xs acc s)
        as (st1 & ->)
  end.
  by eexists _, _.
Qed.

End RenamedNames.

Lemma renamed_names_witness :
  ∃ st' renamed_files,
    rename_supplementary_files Demo.processor (Demo.scenario_gse "A")
      Demo.scenario_table "dl" "renamed" "source_name_ch1"
      (Demo.start Demo.scenario_world)
    = (st', inr renamed_files)
    ∧ ∀ o n, renamed_files !! o = Some n → "/"%char ∉ chars o.
Proof.
  destruct (rename_returns (env := Demo.demo_env) Demo.processor
              (Demo.scenario_gse "A") Demo.scenario_table "dl" "renamed"
              "source_name_ch1" (Demo.start Demo.scenario_world)
              (Demo.mkStore ({["renamed"]} ∪ Demo.files Demo.scenario_world)
                            ∅ (Demo.remote Demo.scenario_world) ∅) eq_refl)
    as (st' & renamed_files & Hrun).
  exists st', renamed_files. split; [done|]. intros o n Hlook.
  by destruct (renamed_names (env := Demo.demo_env) _ _ _ _ _ _ _ _ _ Hrun
                 o n Hlook) as [Hslash _].
Defined.

(** ** What the calls raise *)

Section Raises.
Context `{env : Env}.
Implicit Types (st : state).

(** X17: the only exception that [process_multiple_datasets] raises is the
    one of the creation of the base directory, before any dataset is
    processed; once the directory is made, the call returns the result
    map. *)
Theorem batch_raises_only_on_base_directory
    (gse_ids : list string) (output_base_dir : string)
    (download_supplementary : bool) (filter_pattern : option string)
    (filter_column : string) st :
  let run := process_multiple_datasets gse_ids output_base_dir
               download_supplementary filter_pattern filter_column in
  match mkdir (world st) output_base_dir with
  | (w, None) => ∃ st' results, run st = (st', inr results)
  | (w, Some e) =>
      ∃ st', run st = (st', inl e) ∧ world st' = w ∧ length (logged run st) = 1
  end.
Proof.
  intros run. destruct (mkdir (world st) output_base_dir) as [w [e|]] eqn:Hmkdir.
  - unfold logged, run, process_multiple_datasets, bind, log, io.
    cbn [fst snd world logs]. rewrite Hmkdir. cbn [fst snd world logs].
    eexists. split_and!; [reflexivity|reflexivity|].
    by rewrite drop_app_length.
  - destruct (process_multiple_datasets_runs output_base_dir
                download_supplementary filter_pattern filter_column gse_ids
                st w Hmkdir) as (st1 & st' & results & _ & Hrun & _).
    by exists st', results.
Qed.

(** X18: likewise, the only exception that [rename_supplementary_files]
    raises is the one of the creation of the output directory, before any
    row is read: no file is copied then. *)
Theorem rename_raises_only_on_output_directory
    (self : GEODataProcessor) (gse : GSE) (metadata_df : DataFrame)
    (source_dir out_dir identifier_column : string) st :
  let run := rename_supplementary_files self gse metadata_df source_dir
                                        out_dir identifier_column in
  match mkdir (world st) out_dir with
  | (w, None) => ∃ st' renamed_files, run st = (st', inr renamed_files)
  | (w, Some e) =>
      ∃ st', run st = (st', inl e) ∧ world st' = w ∧ length (logged run st) = 1
  end.
Proof.
  intros run. destruct (mkdir (world st) out_dir) as [w [e|]] eqn:Hmkdir.
  - unfold logged, run, rename_supplementary_files, bind, log, io.
    cbn [fst snd world logs]. rewrite Hmkdir. cbn [fst snd world logs].
    eexists. split_and!; [reflexivity|reflexivity|].
    by rewrite drop_app_length.
  - by eapply rename_returns.
Qed.

Lemma init_processor_returns (dir : string) st st' (processor : GEODataProcessor) :
  init_processor dir st = (st', inr processor) → output_dir processor = dir.
Proof.
  unfold init_processor, bind, io, log, ret.
  destruct (mkdir (world st) dir) as [w [e|]]; cbn [fst snd world logs]; [done|].
  by intros [= _ <-].
Qed.

Lemma download_geo_dataset_returns (self : GEODataProcessor) (gse_id : string)
    (destdir : option string) st st' (gse : GSE) :
  download_geo_dataset self gse_id destdir st = (st', inr gse) →
  ∃ w,
    get_GEO (world st) gse_id
            (default (path_join (output_dir self) gse_id) destdir)
    = (w, inr gse).
Proof.
  unfold download_geo_dataset, try_except, bind, log, io_val, raise,
    metadata_first, get_supplementary_files, ret. cbn [fst snd world logs].
  destruct (get_GEO (world st) gse_id _) as [w [e|fetched]];
    cbn [fst snd world logs]; [done|].
  destruct (default ["N/A"] (gse_metadata fetched !! "title")) as [|t ts];
    cbn [fst snd world logs]; [done|].
  destruct (supplementary_files fetched) as [files|];
    cbn [fst snd world logs]; [|done].
  intros [= _ <-]. by exists w.
Qed.

Lemma extract_metadata_unselected (self : GEODataProcessor) (gse : GSE)
    (output_file : option string) st st' (metadata : DataFrame) :
  extract_metadata self gse None output_file st = (st', inr metadata) →
  metadata = phenotype_data gse.
Proof.
  unfold extract_metadata. intros Hrun.
  do 3 (apply bind_returns in Hrun as (? & ? & _ & Hrun)).
  apply bind_returns in Hrun as (? & selected & Hselected & Hrun).
  apply bind_returns in Hrun as (? & ? & _ & Hrun).
  unfold ret in Hrun, Hselected. injection Hrun as _ <-.
  by injection Hselected as _ <-.
Qed.

(** X19: an entry of success that the batch stores for a dataset holds the
    dataset as [GEOparse.get_GEO] returned it for that ID, downloaded under
    [base/ID/ID], its whole table of samples (no column is selected in a
    batch), and [base/ID] as output directory; the list of supplementary
    files is empty when their download was not asked for, and there is no
    filtered table without pattern. *)
Theorem batch_success_entry
    (base_path : string) (download_supplementary : bool)
    (filter_pattern : option string) (filter_column gse_id : string)
    st st' (entry : batch_result) :
  process_dataset base_path download_supplementary filter_pattern
                  filter_column gse_id st = (st', inr entry) →
  ∃ (w0 w1 : World) gse filtered_metadata supplementary summary,
    entry = Success gse (phenotype_data gse) filtered_metadata supplementary
                    summary (path_join base_path gse_id)
    ∧ status entry = "success"
    ∧ mkdir (world st) (path_join base_path gse_id) = (w0, None)
    ∧ get_GEO w0 gse_id (path_join (path_join base_path gse_id) gse_id)
      = (w1, inr gse)
    ∧ (download_supplementary = false → supplementary = [])
    ∧ (filter_pattern = None → filtered_metadata = None).
Proof.
  unfold process_dataset. intros Hrun.
  apply bind_returns in Hrun as (s1 & processor & Hinit & Hrun).
  apply bind_returns in Hrun as (s2 & gse & Hfetch & Hrun).
  apply bind_returns in Hrun as (s3 & metadata & Hextract & Hrun).
  apply bind_returns in Hrun as (s4 & supplementary & Hsupp & Hrun).
  apply bind_returns in Hrun as (s5 & filtered_metadata & Hfilter & Hrun).
  apply bind_returns in Hrun as (s6 & summary & _ & Hrun).
  apply bind_returns in Hrun as (s7 & annotation & _ & Hrun).
  unfold ret in Hrun. injection Hrun as _ <-.
  apply extract_metadata_unselected in Hextract as ->.
  pose proof (init_processor_returns _ _ _ _ Hinit) as Hdir.
  apply download_geo_dataset_returns in Hfetch as (w1 & Hget).
  rewrite Hdir in Hget. cbn [default] in Hget.
  assert (Hmk : ∃ w0, mkdir (world st) (path_join base_path gse_id) = (w0, None)
                      ∧ world s1 = w0).
  { revert Hinit. unfold init_processor, bind, io, log, ret.
    destruct (mkdir (world st) _) as [w [e|]]; cbn [fst snd world logs];
      [done|]. intros [= <- _]. by exists w. }
  destruct Hmk as (w0 & Hmk & Hw0). rewrite Hw0 in Hget.
  exists w0, w1, gse, filtered_metadata, supplementary, summary.
  split_and!; [done|done|done|done| |].
  - intros ->. unfold ret in Hsupp. by injection Hsupp as _ <-.
  - intros ->. unfold batch_filter, ret in Hfilter. by injection Hfilter as _ <-.
Qed.

End Raises.

Lemma batch_success_entry_witness :
  ∃ st' gse filtered_metadata supplementary summary,
    process_dataset "batch" true None "title" "A"
                    (Demo.start Demo.scenario_world)
    = (st', inr (Success gse (phenotype_data gse) filtered_metadata
                         supplementary summary "batch/A")).
Proof.
  destruct (process_dataset "batch" true None "title" "A"
              (Demo.start Demo.scenario_world))
    as [st' [e|entry]] eqn:Hrun.
  - exfalso.
    assert (Hok : match (process_dataset "batch" true None "title" "A"
                           (Demo.start Demo.scenario_world)).2 with
                  | inr _ => true
                  | inl _ => false
                  end = true) by (vm_compute; reflexivity).
    by rewrite Hrun in Hok.
  - destruct (batch_success_entry (env := Demo.demo_env) "batch" true None
                "title" "A" (Demo.start Demo.scenario_world) st' entry Hrun)
      as (w0 & w1 & gse & fm & supp & summary & -> & _).
    by exists st', gse, fm, supp, summary.
Defined.
